(** * DecisionLens: the X-Ray tracing core

    A shallow embedding of [app/xray] (client.py, run.py, step.py and
    store/sqlite_store.py) and the properties of the run / step lifecycle
    and of the SQLite reference backend.

    Conventions of the embedding.
    - Python values that travel through the payload fields are the
      JSON-shaped values of [pyval]; [None] is [PNone].
    - A [datetime] is the number of microseconds since the epoch (a [Z]).
      The ISO-8601 text produced by [isoformat()] orders as the instant it
      denotes, so the TEXT columns [started_at] / [ended_at] hold that [Z].
    - [datetime.utcnow()] and [uuid.uuid4()] read the environment: the
      world carries the readings still to come.
    - A raised exception is a value of [exn]; the state reached when it was
      raised is kept, as in Python. *)

From Stdlib Require Import ZArith List String Ascii Bool Lia Permutation Sorted.
From Stdlib Require Import DecimalString.
Import ListNotations.
Open Scope string_scope.
Open Scope Z_scope.

Set Implicit Arguments.
Set Warnings "-register-all".

(** ** Python values *)

Inductive pyval : Type :=
| PNone
| PBool (b : bool)
| PInt (z : Z)
| PStr (s : string)
| PList (l : list pyval)
| PDict (d : list (string * pyval)).

(** Truth value testing, as used by [x or {}] and [... if x else None]. *)
Definition truthy (v : pyval) : bool :=
  match v with
  | PNone => false
  | PBool b => b
  | PInt z => negb (z =? 0)
  | PStr s => negb (s =? EmptyString)%string
  | PList l => match l with [] => false | _ => true end
  | PDict d => match d with [] => false | _ => true end
  end.

(** [a or b] *)
Definition py_or (a b : pyval) : pyval := if truthy a then a else b.

(** Truth value of an [Optional[str]] (also of a nullable TEXT cell). *)
Definition text_truthy (c : option string) : bool :=
  match c with
  | Some s => negb (s =? EmptyString)%string
  | None => false
  end.

(** ** Exceptions and results *)

(** An exception is known by its class and by the text [str(e)] gives.
    Only instances of [Exception] are modelled: they are what the two
    [except Exception] clauses of the scope managers catch. *)
Record exn : Type := Exception { exn_class : string; exn_str : string }.

(** [str(e)] *)
Definition str (e : exn) : string := exn_str e.

Inductive result (A : Type) : Type :=
| Ok (a : A)
| Raised (e : exn).
Arguments Ok {A} a.
Arguments Raised {A} e.

Definition is_ok {A} (r : result A) : bool :=
  match r with Ok _ => true | Raised _ => false end.

(** ** The [json] module

    [json.dumps] and [json.loads] belong to the Python library, not to the
    repository: the store is parametric in them.  [loads s = None] stands
    for [json.JSONDecodeError]. *)

Class Json : Type := {
  dumps : pyval -> string;
  loads : string -> option pyval
}.

(** ** Persisted rows *)

Module RunRow.
Record t : Type := mk {
  id : string;
  name : string;
  started_at : Z;
  ended_at : option Z;
  duration_ms : option Z;
  status : string;
  metadata : option string;
  error : option string
}.
End RunRow.

Module StepRow.
Record t : Type := mk {
  id : string;
  run_id : string;
  name : string;
  step_index : Z;
  started_at : Z;
  ended_at : option Z;
  duration_ms : option Z;
  status : string;
  input : option string;
  output : option string;
  reasoning : option string;
  filters_applied : option string;
  evaluations : option string;
  error : option string
}.
End StepRow.

(** The two tables, rows in insertion order. *)
Record DB : Type := mkDB {
  runs : list RunRow.t;
  steps : list StepRow.t
}.

(** The database right after [_init_db] on a new file. *)
Definition empty_db : DB := mkDB [] [].

(** ** The world: database, clock and uuid source *)

Record World : Type := mkWorld {
  db : DB;
  clock : nat -> Z;
  ticks : nat;
  uuids : nat -> string;
  drawn : nat
}.

Definition set_db (w : World) (d : DB) : World :=
  mkWorld d (clock w) (ticks w) (uuids w) (drawn w).

(** [datetime.utcnow()] *)
Definition utcnow (w : World) : Z * World :=
  (clock w (ticks w), mkWorld (db w) (clock w) (S (ticks w)) (uuids w) (drawn w)).

(** [str(uuid.uuid4())] *)
Definition uuid4 (w : World) : string * World :=
  (uuids w (drawn w), mkWorld (db w) (clock w) (ticks w) (uuids w) (S (drawn w))).

(** [int((ended_at - started_at).total_seconds() * 1000)]: the difference
    in microseconds, scaled to milliseconds and truncated toward zero. *)
Definition duration_ms_between (started_at ended_at : Z) : Z :=
  Z.quot (ended_at - started_at) 1000.

(** ** Views returned by the readers

    The dictionaries built by [list_runs] and [get_run].  [steps = None]
    is a dictionary without the ["steps"] key. *)

Module StepView.
Record t : Type := mk {
  id : string;
  run_id : string;
  name : string;
  step_index : Z;
  index : Z;
  started_at : Z;
  ended_at : option Z;
  duration_ms : option Z;
  status : string;
  input : pyval;
  output : pyval;
  reasoning : option string;
  filters_applied : pyval;
  evaluations : pyval;
  error : option string
}.
End StepView.

Module RunView.
Record t : Type := mk {
  id : string;
  name : string;
  started_at : Z;
  ended_at : option Z;
  duration_ms : option Z;
  status : string;
  metadata : pyval;
  error : option string;
  steps : option (list StepView.t)
}.
End RunView.

(** ** ORDER BY and LIMIT *)

Section OrderBy.
Variable A : Type.
Variable before : A -> A -> bool.

Fixpoint insert_by (x : A) (l : list A) : list A :=
  match l with
  | [] => [x]
  | y :: l' => if before x y then x :: l else y :: insert_by x l'
  end.

Definition order_by (l : list A) : list A := fold_right insert_by [] l.
End OrderBy.

(** [LIMIT n]: a negative [n] puts no bound on the number of rows. *)
Definition sql_limit {A} (n : Z) (l : list A) : list A :=
  if n <? 0 then l else firstn (Z.to_nat n) l.

(** ** store/sqlite_store.py *)

Module SQLiteStore.
Section WithJson.
Context {J : Json}.

Definition IntegrityError (column : string) : exn :=
  Exception "sqlite3.IntegrityError" ("UNIQUE constraint failed: " ++ column).

Definition create_run (run_id name : string) (metadata : pyval)
    (w : World) : result unit * World :=
  let '(now, w) := utcnow w in
  let row := RunRow.mk run_id name now None None "running"
                       (Some (dumps metadata)) None in
  if existsb (fun r => RunRow.id r =? run_id)%string (runs (db w))
  then (Raised (IntegrityError "runs.id"), w)
  else (Ok tt, set_db w (mkDB (runs (db w) ++ [row]) (steps (db w)))).

Definition finish_run (run_id : string) (ended_at : Z) (duration_ms : Z)
    (status : string) (error : option string)
    (w : World) : result unit * World :=
  let upd r :=
    if (RunRow.id r =? run_id)%string
    then RunRow.mk (RunRow.id r) (RunRow.name r) (RunRow.started_at r)
                   (Some ended_at) (Some duration_ms) status
                   (RunRow.metadata r) error
    else r in
  (Ok tt, set_db w (mkDB (map upd (runs (db w))) (steps (db w)))).

Definition create_step (step_id run_id name : string) (index : Z)
    (input_data : pyval) (reasoning : option string)
    (w : World) : result unit * World :=
  let '(now, w) := utcnow w in
  let row := StepRow.mk step_id run_id name index now None None "running"
                        (Some (dumps input_data)) None reasoning
                        None None None in
  if existsb (fun s => StepRow.id s =? step_id)%string (steps (db w))
  then (Raised (IntegrityError "steps.id"), w)
  else (Ok tt, set_db w (mkDB (runs (db w)) (steps (db w) ++ [row]))).

(** [json.dumps(x) if x else None] *)
Definition dumps_if (x : pyval) : option string :=
  if truthy x then Some (dumps x) else None.

Definition finish_step (step_id : string) (ended_at : Z) (duration_ms : Z)
    (status : string) (output filters_applied evaluations : pyval)
    (error : option string) (w : World) : result unit * World :=
  let upd s :=
    if (StepRow.id s =? step_id)%string
    then StepRow.mk (StepRow.id s) (StepRow.run_id s) (StepRow.name s)
                    (StepRow.step_index s) (StepRow.started_at s)
                    (Some ended_at) (Some duration_ms) status
                    (StepRow.input s) (dumps_if output)
                    (StepRow.reasoning s) (dumps_if filters_applied)
                    (dumps_if evaluations) error
    else s in
  (Ok tt, set_db w (mkDB (runs (db w)) (map upd (steps (db w))))).

(** The decoding of one payload cell in the readers:
    [if cell: try: json.loads(cell) except ...: default  else: default] *)
Definition load_cell (default : pyval) (cell : option string) : pyval :=
  if text_truthy cell
  then match cell with
       | Some s => match loads s with Some v => v | None => default end
       | None => default
       end
  else default.

(** [dict(row)] with the metadata decoded *)
Definition run_view (r : RunRow.t) (steps : option (list StepView.t))
    : RunView.t :=
  RunView.mk (RunRow.id r) (RunRow.name r) (RunRow.started_at r)
             (RunRow.ended_at r) (RunRow.duration_ms r) (RunRow.status r)
             (load_cell (PDict []) (RunRow.metadata r)) (RunRow.error r)
             steps.

Definition step_view (s : StepRow.t) : StepView.t :=
  StepView.mk (StepRow.id s) (StepRow.run_id s) (StepRow.name s)
              (StepRow.step_index s) (StepRow.step_index s)
              (StepRow.started_at s) (StepRow.ended_at s)
              (StepRow.duration_ms s) (StepRow.status s)
              (load_cell (PDict []) (StepRow.input s))
              (load_cell (PDict []) (StepRow.output s))
              (StepRow.reasoning s)
              (load_cell PNone (StepRow.filters_applied s))
              (load_cell PNone (StepRow.evaluations s))
              (StepRow.error s).

(** [ORDER BY started_at DESC] *)
Definition newer_first (a b : RunRow.t) : bool :=
  RunRow.started_at b <=? RunRow.started_at a.

(** [ORDER BY step_index ASC] *)
Definition by_index (a b : StepRow.t) : bool :=
  StepRow.step_index a <=? StepRow.step_index b.

Definition list_runs (limit : Z) (w : World) : list RunView.t :=
  let rows := sql_limit limit (order_by newer_first (runs (db w))) in
  map (fun r => run_view r None) rows.

Definition get_run (run_id : string) (w : World) : option RunView.t :=
  match find (fun r => RunRow.id r =? run_id)%string (runs (db w)) with
  | None => None
  | Some row =>
      let step_rows :=
        order_by by_index
          (filter (fun s => StepRow.run_id s =? run_id)%string
                  (steps (db w))) in
      Some (run_view row (Some (map step_view step_rows)))
  end.
End WithJson.
End SQLiteStore.

(** ** step.py *)

Module Step.
Record t : Type := mk {
  step_id : string;
  run_id : string;
  name : string;
  index : Z;
  _input_data : pyval;
  _reasoning : option string;
  _started_at : Z;
  _output : pyval;
  _filters_applied : pyval;
  _evaluations : list pyval;
  _error : option string
}.

(** [Step.__init__] *)
Definition init (step_id run_id name : string) (index : Z)
    (input_data : pyval) (reasoning : option string)
    (w : World) : t * World :=
  let '(now, w) := utcnow w in
  (mk step_id run_id name index input_data reasoning now
      PNone PNone [] None, w).

Definition set_output (output : pyval) (s : t) : t :=
  mk (step_id s) (run_id s) (name s) (index s) (_input_data s)
     (_reasoning s) (_started_at s) output (_filters_applied s)
     (_evaluations s) (_error s).

Definition set_filters (filters : pyval) (s : t) : t :=
  mk (step_id s) (run_id s) (name s) (index s) (_input_data s)
     (_reasoning s) (_started_at s) (_output s) filters
     (_evaluations s) (_error s).

Definition add_evaluation (evaluation : pyval) (s : t) : t :=
  mk (step_id s) (run_id s) (name s) (index s) (_input_data s)
     (_reasoning s) (_started_at s) (_output s) (_filters_applied s)
     (_evaluations s ++ [evaluation]) (_error s).

Definition add_evaluations (evaluations : list pyval) (s : t) : t :=
  mk (step_id s) (run_id s) (name s) (index s) (_input_data s)
     (_reasoning s) (_started_at s) (_output s) (_filters_applied s)
     (_evaluations s ++ evaluations) (_error s).

Definition _set_error (error : string) (s : t) : t :=
  mk (step_id s) (run_id s) (name s) (index s) (_input_data s)
     (_reasoning s) (_started_at s) (_output s) (_filters_applied s)
     (_evaluations s) (Some error).

Section WithJson.
Context {J : Json}.

Definition _finish (s : t) (w : World) : result unit * World :=
  let '(ended_at, w) := utcnow w in
  let duration_ms := duration_ms_between (_started_at s) ended_at in
  let status := if text_truthy (_error s) then "error" else "success" in
  SQLiteStore.finish_step (step_id s) ended_at duration_ms status
    (_output s) (_filters_applied s)
    (match _evaluations s with [] => PNone | l => PList l end)
    (_error s) w.
End WithJson.
End Step.

(** Caller code running against a handle of type [H]: it may update the
    handle and the world, and it may raise. *)
Definition body (H : Type) : Type := H -> World -> result unit * H * World.

(** ** run.py *)

Module Run.
Record t : Type := mk {
  run_id : string;
  name : string;
  metadata : pyval;
  _step_index : Z;
  _started_at : Z;
  _error : option string
}.

(** [Run.__init__] *)
Definition init (run_id name : string) (metadata : pyval)
    (w : World) : t * World :=
  let '(now, w) := utcnow w in
  (mk run_id name metadata 0 now None, w).

Definition _set_error (error : string) (r : t) : t :=
  mk (run_id r) (name r) (metadata r) (_step_index r) (_started_at r)
     (Some error).

Section WithJson.
Context {J : Json}.

(** [with run.step(name, input_data, reasoning) as step: blk] *)
Definition step (name : string) (input_data : pyval)
    (reasoning : option string) (blk : body Step.t) : body t :=
  fun r w =>
  let '(step_id, w) := uuid4 w in
  let step_index := _step_index r in
  let r := mk (run_id r) (Run.name r) (metadata r) (step_index + 1)
              (_started_at r) (_error r) in
  let '(st, w) := Step.init step_id (run_id r) name step_index
                            (py_or input_data (PDict [])) reasoning w in
  (* try: create_step; yield *)
  let '(res, st, w) :=
    match SQLiteStore.create_step step_id (run_id r) name step_index
            (py_or input_data (PDict [])) reasoning w with
    | (Ok _, w) => blk st w
    | (Raised e, w) => (Raised e, st, w)
    end in
  (* except Exception as e: step._set_error(str(e)); raise *)
  let st := match res with
            | Ok _ => st
            | Raised e => Step._set_error (str e) st
            end in
  (* finally: step._finish() *)
  match Step._finish st w with
  | (Ok _, w) => (res, r, w)
  | (Raised e, w) => (Raised e, r, w)
  end.

Definition _finish (r : t) (w : World) : result unit * World :=
  let '(ended_at, w) := utcnow w in
  let duration_ms := duration_ms_between (_started_at r) ended_at in
  let status := if text_truthy (_error r) then "error" else "success" in
  SQLiteStore.finish_run (run_id r) ended_at duration_ms status
    (_error r) w.
End WithJson.
End Run.

(** ** client.py *)

Module XRay.
Section WithJson.
Context {J : Json}.

(** [with xray.run(name, metadata) as run: blk].  The outcome is what
    the caller of the [with] statement observes.  The attribute
    [_current_run], set on entry and cleared on exit, is read by
    [get_current_run] only and is left out. *)
Definition run (name : string) (metadata : pyval) (blk : body Run.t)
    (w : World) : result unit * World :=
  let '(run_id, w) := uuid4 w in
  let '(r, w) := Run.init run_id name (py_or metadata (PDict [])) w in
  (* try: create_run; yield *)
  let '(res, r, w) :=
    match SQLiteStore.create_run run_id name
            (py_or metadata (PDict [])) w with
    | (Ok _, w) => blk r w
    | (Raised e, w) => (Raised e, r, w)
    end in
  (* except Exception as e: run._set_error(str(e)); raise *)
  let r := match res with
           | Ok _ => r
           | Raised e => Run._set_error (str e) r
           end in
  (* finally: run._finish() *)
  match Run._finish r w with
  | (Ok _, w) => (res, w)
  | (Raised e, w) => (Raised e, w)
  end.
End WithJson.
End XRay.

(** ** Pipeline code

    What a caller writes inside the two scopes: a step block calls the
    setters of its step handle and may end by raising; a run block opens
    steps one after the other, may guard a step with
    [try: ... except Exception: pass], and may raise. *)

Inductive step_op : Type :=
| SetOutput (v : pyval)
| SetFilters (v : pyval)
| AddEvaluation (v : pyval)
| AddEvaluations (vs : list pyval).

Definition do_op (o : step_op) (s : Step.t) : Step.t :=
  match o with
  | SetOutput v => Step.set_output v s
  | SetFilters v => Step.set_filters v s
  | AddEvaluation v => Step.add_evaluation v s
  | AddEvaluations vs => Step.add_evaluations vs s
  end.

Definition step_block (ops : list step_op) (failure : option exn)
    : body Step.t :=
  fun s w =>
    (match failure with Some e => Raised e | None => Ok tt end,
     fold_left (fun s o => do_op o s) ops s, w).

Record step_call : Type := StepCall {
  sc_name : string;
  sc_input : pyval;
  sc_reasoning : option string;
  sc_ops : list step_op;
  sc_failure : option exn
}.

Inductive cmd : Type :=
| DoStep (c : step_call)          (* with run.step(...) as step: ... *)
| TryStep (c : step_call)         (* the same inside try/except Exception *)
| DoRaise (e : exn).              (* raise e *)

Section Pipeline.
Context {J : Json}.

Definition call_step (c : step_call) : body Run.t :=
  Run.step (sc_name c) (sc_input c) (sc_reasoning c)
           (step_block (sc_ops c) (sc_failure c)).

Fixpoint run_block (cs : list cmd) : body Run.t :=
  fun r w =>
  match cs with
  | [] => (Ok tt, r, w)
  | DoStep c :: cs' =>
      match call_step c r w with
      | (Ok _, r, w) => run_block cs' r w
      | (Raised e, r, w) => (Raised e, r, w)
      end
  | TryStep c :: cs' =>
      let '(_, r, w) := call_step c r w in run_block cs' r w
  | DoRaise e :: _ => (Raised e, r, w)
  end.
End Pipeline.

(** ** A reference [json] codec

    The compact subset of JSON text that [json.dumps] emits for [pyval]
    (separators [", "] and [": "]), and a recursive-descent reader for it.
    It is used to run the store on concrete payloads. *)

Module RefJson.
(** The double-quote character. *)
Definition dq : ascii := "034"%char.

Definition escape_char (c : ascii) : string :=
  if (c =? dq)%char then String "\" (String dq EmptyString)
  else if (c =? "\")%char then "\\"
  else String c EmptyString.

Fixpoint escape (s : string) : string :=
  match s with
  | EmptyString => EmptyString
  | String c s' => escape_char c ++ escape s'
  end.

Definition quote (s : string) : string :=
  String dq (escape s ++ String dq EmptyString).

Definition print_int (z : Z) : string :=
  NilZero.string_of_int (Z.to_int z).

Fixpoint print (v : pyval) : string :=
  match v with
  | PNone => "null"
  | PBool true => "true"
  | PBool false => "false"
  | PInt z => print_int z
  | PStr s => quote s
  | PList l =>
      "[" ++ (fix elems (l : list pyval) : string :=
                match l with
                | [] => EmptyString
                | [x] => print x
                | x :: l' => print x ++ ", " ++ elems l'
                end) l ++ "]"
  | PDict d =>
      "{" ++ (fix members (d : list (string * pyval)) : string :=
                match d with
                | [] => EmptyString
                | [(k, x)] => quote k ++ ": " ++ print x
                | (k, x) :: d' => quote k ++ ": " ++ print x ++ ", " ++ members d'
                end) d ++ "}"
  end.

Fixpoint skip_ws (s : string) : string :=
  match s with
  | String c s' => if (c =? " ")%char then skip_ws s' else s
  | EmptyString => s
  end.

Fixpoint strip_prefix (p s : string) : option string :=
  match p, s with
  | EmptyString, _ => Some s
  | String a p', String b s' => if (a =? b)%char then strip_prefix p' s' else None
  | String _ _, EmptyString => None
  end.

(** The characters of a string literal after its opening quote. *)
Fixpoint read_string (s : string) : option (string * string) :=
  match s with
  | EmptyString => None
  | String c s' =>
      if (c =? dq)%char then Some (EmptyString, s')
      else if (c =? "\")%char then
        match s' with
        | String e s'' =>
            if ((e =? dq) || (e =? "\"))%char
            then match read_string s'' with
                 | Some (t, rest) => Some (String e t, rest)
                 | None => None
                 end
            else None
        | EmptyString => None
        end
      else match read_string s' with
           | Some (t, rest) => Some (String c t, rest)
           | None => None
           end
  end.

Definition is_digit (c : ascii) : bool :=
  ((48 <=? nat_of_ascii c) && (nat_of_ascii c <=? 57))%nat.

Fixpoint read_digits (acc : Z) (s : string) : Z * string :=
  match s with
  | String c s' =>
      if is_digit c
      then read_digits (10 * acc + Z.of_nat (nat_of_ascii c - 48)) s'
      else (acc, s)
  | EmptyString => (acc, s)
  end.

Definition read_int (s : string) : option (Z * string) :=
  match s with
  | String c s' =>
      if (c =? "-")%char then
        match s' with
        | String d _ =>
            if is_digit d
            then let '(n, rest) := read_digits 0 s' in Some (- n, rest)
            else None
        | EmptyString => None
        end
      else if is_digit c then Some (read_digits 0 s)
      else None
  | EmptyString => None
  end.

Fixpoint read_value (fuel : nat) (s : string) {struct fuel}
    : option (pyval * string) :=
  match fuel with
  | O => None
  | S fuel =>
      let s := skip_ws s in
      match strip_prefix "null" s, strip_prefix "true" s,
            strip_prefix "false" s, s with
      | Some rest, _, _, _ => Some (PNone, rest)
      | _, Some rest, _, _ => Some (PBool true, rest)
      | _, _, Some rest, _ => Some (PBool false, rest)
      | _, _, _, String c s' =>
          if (c =? dq)%char then
            match read_string s' with
            | Some (t, rest) => Some (PStr t, rest)
            | None => None
            end
          else if (c =? "[")%char then
            match strip_prefix "]" (skip_ws s') with
            | Some rest => Some (PList [], rest)
            | None =>
                match read_elems fuel s' with
                | Some (l, rest) => Some (PList l, rest)
                | None => None
                end
            end
          else if (c =? "{")%char then
            match strip_prefix "}" (skip_ws s') with
            | Some rest => Some (PDict [], rest)
            | None =>
                match read_members fuel s' with
                | Some (d, rest) => Some (PDict d, rest)
                | None => None
                end
            end
          else match read_int s with
               | Some (z, rest) => Some (PInt z, rest)
               | None => None
               end
      | _, _, _, EmptyString => None
      end
  end
with read_elems (fuel : nat) (s : string) {struct fuel}
    : option (list pyval * string) :=
  match fuel with
  | O => None
  | S fuel =>
      match read_value fuel s with
      | Some (v, rest) =>
          match skip_ws rest with
          | String c rest' =>
              if (c =? "]")%char then Some ([v], rest')
              else if (c =? ",")%char then
                match read_elems fuel rest' with
                | Some (l, rest'') => Some (v :: l, rest'')
                | None => None
                end
              else None
          | EmptyString => None
          end
      | None => None
      end
  end
with read_members (fuel : nat) (s : string) {struct fuel}
    : option (list (string * pyval) * string) :=
  match fuel with
  | O => None
  | S fuel =>
      match strip_prefix (String dq EmptyString) (skip_ws s) with
      | Some s1 =>
          match read_string s1 with
          | Some (k, s2) =>
              match strip_prefix ":" (skip_ws s2) with
              | Some s3 =>
                  match read_value fuel s3 with
                  | Some (v, rest) =>
                      match skip_ws rest with
                      | String c rest' =>
                          if (c =? "}")%char then Some ([(k, v)], rest')
                          else if (c =? ",")%char then
                            match read_members fuel rest' with
                            | Some (d, rest'') => Some ((k, v) :: d, rest'')
                            | None => None
                            end
                          else None
                      | EmptyString => None
                      end
                  | None => None
                  end
              | None => None
              end
          | None => None
          end
      | None => None
      end
  end.

Definition parse (s : string) : option pyval :=
  match read_value (2 * String.length s + 4) s with
  | Some (v, rest) =>
      match skip_ws rest with
      | EmptyString => Some v
      | String _ _ => None
      end
  | None => None
  end.

Definition codec : Json := {| dumps := print; loads := parse |}.
End RefJson.



(** ** Vocabulary of the statements *)

(** A clock that never runs backwards. *)
Definition monotone_clock (w : World) : Prop :=
  forall i j : nat, (i <= j)%nat -> clock w i <= clock w j.




(** A value that survives the trip through a TEXT column: it is truthy, so
    the writers store it, and the codec reads its own text back. *)
Definition stored_faithfully {J : Json} (v : pyval) : Prop :=
  truthy v = true /\ dumps v <> EmptyString /\ loads (dumps v) = Some v.

(** The evaluations a step block hands to its step, in call order. *)
Definition evaluations_of (ops : list step_op) : list pyval :=
  flat_map (fun o => match o with
                     | AddEvaluation v => [v]
                     | AddEvaluations vs => vs
                     | _ => []
                     end) ops.

(** The number of [run.step(...)] calls a run block reaches when no
    [create_step] fails: an unguarded failing step ends the block. *)
Fixpoint steps_opened (cs : list cmd) : nat :=
  match cs with
  | [] => 0
  | DoStep c :: cs' =>
      match sc_failure c with
      | Some _ => 1
      | None => S (steps_opened cs')
      end
  | TryStep _ :: cs' => S (steps_opened cs')
  | DoRaise _ :: _ => 0
  end.

(** The next [n] values of [uuid4()]. *)
Definition next_uuids (w : World) (n : nat) : list string :=
  map (uuids w) (seq (drawn w) n).

Fixpoint distinct (l : list string) : bool :=
  match l with
  | [] => true
  | x :: l' => negb (existsb (String.eqb x) l') && distinct l'
  end.

(** The identifiers [new] are pairwise distinct and none is in [old]. *)
Definition fresh_among (old new : list string) : bool :=
  distinct new && forallb (fun x => negb (existsb (String.eqb x) old)) new.

(** How a scope ends: the outcome of a block that ends with [failure], the
    error text the scope manager records for an outcome, and the status
    [_finish] derives from the recorded error. *)
Definition outcome (failure : option exn) : result unit :=
  match failure with Some e => Raised e | None => Ok tt end.

Definition error_of (res : result unit) : option string :=
  match res with Ok _ => None | Raised e => Some (str e) end.

Definition status_of (error : option string) : string :=
  if text_truthy error then "error" else "success".

Section Persisted.
Context {J : Json}.

(** The step handle at the end of the scope opened by step call [c] on
    run handle [r] in world [w]. *)
Definition closed_handle (c : step_call) (r : Run.t) (w : World) : Step.t :=
  let h := fold_left (fun s o => do_op o s) (sc_ops c)
             (Step.mk (uuids w (drawn w)) (Run.run_id r) (sc_name c)
                      (Run._step_index r) (py_or (sc_input c) (PDict []))
                      (sc_reasoning c) (clock w (ticks w))
                      PNone PNone [] None) in
  match sc_failure c with
  | Some e => Step._set_error (str e) h
  | None => h
  end.

(** The row that this step call leaves in the steps table. *)
Definition persisted_step (c : step_call) (r : Run.t) (w : World)
    : StepRow.t :=
  let h := closed_handle c r w in
  let ended_at := clock w (2 + ticks w)%nat in
  StepRow.mk (uuids w (drawn w)) (Run.run_id r) (sc_name c)
             (Run._step_index r) (clock w (S (ticks w)))
             (Some ended_at)
             (Some (duration_ms_between (clock w (ticks w)) ended_at))
             (status_of (error_of (outcome (sc_failure c))))
             (Some (dumps (py_or (sc_input c) (PDict []))))
             (SQLiteStore.dumps_if (Step._output h))
             (sc_reasoning c)
             (SQLiteStore.dumps_if (Step._filters_applied h))
             (SQLiteStore.dumps_if
                (match Step._evaluations h with
                 | [] => PNone
                 | l => PList l
                 end))
             (error_of (outcome (sc_failure c))).

(** The world after the scope of step call [c] has closed. *)
Definition after_step (c : step_call) (r : Run.t) (w : World) : World :=
  mkWorld (mkDB (runs (db w)) (steps (db w) ++ [persisted_step c r w]))
          (clock w) (3 + ticks w) (uuids w) (S (drawn w)).

(** The run handle after one more [step(...)] call. *)
Definition next_index (r : Run.t) : Run.t :=
  Run.mk (Run.run_id r) (Run.name r) (Run.metadata r)
         (Run._step_index r + 1) (Run._started_at r) (Run._error r).

(** The row that [xray.run(name, metadata)] entered in world [w] leaves in
    the runs table when its block ends with [res] and [_finish] reads the
    clock at tick [t]. *)
Definition persisted_run (name : string) (metadata : pyval) (w : World)
    (res : result unit) (t : nat) : RunRow.t :=
  RunRow.mk (uuids w (drawn w)) name (clock w (S (ticks w)))
            (Some (clock w t))
            (Some (duration_ms_between (clock w (ticks w)) (clock w t)))
            (status_of (error_of res))
            (Some (dumps (py_or metadata (PDict []))))
            (error_of res).

(** The run handle and the world in which the block of
    [xray.run(name, metadata)] starts. *)
Definition opened_run (name : string) (metadata : pyval) (w : World) : Run.t :=
  Run.mk (uuids w (drawn w)) name (py_or metadata (PDict [])) 0
         (clock w (ticks w)) None.

Definition world_in_run (name : string) (metadata : pyval) (w : World) : World :=
  mkWorld (mkDB (runs (db w)
                 ++ [RunRow.mk (uuids w (drawn w)) name (clock w (S (ticks w)))
                               None None "running"
                               (Some (dumps (py_or metadata (PDict []))))
                               None])
                (steps (db w)))
          (clock w) (2 + ticks w) (uuids w) (S (drawn w)).

(** The world after [with xray.run(name, metadata) as run:] with the one
    step call [c] in its block, entered on a new database, and what
    [get_run] then returns for the run. *)
Definition single_step_world (clk : nat -> Z) (ids : nat -> string)
    (t n : nat) (name : string) (metadata : pyval) (c : step_call) : World :=
  let w := mkWorld empty_db clk t ids n in
  mkWorld (mkDB [persisted_run name metadata w (outcome (sc_failure c)) (5 + t)]
                [persisted_step c (opened_run name metadata w)
                                (world_in_run name metadata w)])
          clk (6 + t) ids (2 + n).

Definition single_step_view (clk : nat -> Z) (ids : nat -> string)
    (t n : nat) (name : string) (metadata : pyval) (c : step_call)
    : RunView.t :=
  let w := mkWorld empty_db clk t ids n in
  SQLiteStore.run_view
    (persisted_run name metadata w (outcome (sc_failure c)) (5 + t))
    (Some [SQLiteStore.step_view
             (persisted_step c (opened_run name metadata w)
                             (world_in_run name metadata w))]).

(** A block that leaves the runs table, the clock and uuid sources, and
    the identity, start time and error of its run handle alone. *)
Definition keeps_run_frame (blk : body Run.t) : Prop :=
  forall r w res r' w',
    blk r w = (res, r', w') ->
    runs (db w') = runs (db w) /\
    clock w' = clock w /\
    uuids w' = uuids w /\
    (ticks w <= ticks w')%nat /\
    (drawn w <= drawn w')%nat /\
    Run.run_id r' = Run.run_id r /\
    Run._started_at r' = Run._started_at r /\
    Run._error r' = Run._error r.
End Persisted.

(** ** Concrete worlds

    A new database file, a clock that advances by one millisecond per
    reading, and a uuid source without repetitions among its first draws. *)

Definition demo_clock (n : nat) : Z := 1000 * Z.of_nat n.

Definition demo_uuids (n : nat) : string :=
  match n with
  | 0%nat => "uuid-0"
  | 1%nat => "uuid-1"
  | 2%nat => "uuid-2"
  | 3%nat => "uuid-3"
  | _ => "uuid-n"
  end.

Definition new_world : World := mkWorld empty_db demo_clock 0 demo_uuids 0.

(** The world after [create_run("r1", "first", {})] on a new database. *)
Definition world_with_r1 : World :=
  snd (SQLiteStore.create_run (J := RefJson.codec) "r1" "first" (PDict []) new_world).

(** The world after three [create_run] calls on a new database. *)
Definition world_with_three_runs : World :=
  let w1 := snd (SQLiteStore.create_run (J := RefJson.codec)
                   "run-a" "first" (PDict []) new_world) in
  let w2 := snd (SQLiteStore.create_run (J := RefJson.codec)
                   "run-b" "second" (PDict []) w1) in
  snd (SQLiteStore.create_run (J := RefJson.codec)
         "run-c" "third" (PDict []) w2).

(** A run block with a step that succeeds, a guarded step that fails, and
    a last step that fails and ends the block. *)
Definition mixed_block : list cmd :=
  [ DoStep (StepCall "load" (PDict [("x", PInt 1)]) None
                     [SetOutput (PDict [("n", PInt 3)])] None);
    TryStep (StepCall "filter" PNone (Some "optional") []
                      (Some (Exception "ValueError" "bad filter")));
    DoStep (StepCall "rank" PNone None []
                     (Some (Exception "KeyError" "score"))) ].

(** A step block that calls [add_evaluation] three times. *)
Definition three_evaluations : list step_op :=
  [ AddEvaluation (PDict [("asin", PStr "B0COMP01"); ("qualified", PBool true)]);
    AddEvaluation (PDict [("asin", PStr "B0COMP02"); ("qualified", PBool false)]);
    AddEvaluation (PDict [("asin", PStr "B0COMP03"); ("qualified", PBool true)]) ].

(** A run block that completes normally: its one failing step is guarded. *)
Definition guarded_block : list cmd := firstn 2 mixed_block.

(** A run block that raises an exception with an empty message, as
    [raise ValueError()] or a failing [assert] without message do. *)
Definition silent_failure : exn := Exception "ValueError" EmptyString.

Definition silent_block : list cmd := [DoRaise silent_failure].


(** ** Further vocabulary *)

(** Both primary keys hold: no two rows of a table share an id. *)
Definition well_keyed (d : DB) : Prop :=
  NoDup (map RunRow.id (runs d)) /\ NoDup (map StepRow.id (steps d)).

(** The value of the last [set_output] / [set_filters] call of a step
    block, [None] when there is none. *)
Definition last_output (ops : list step_op) : pyval :=
  fold_left (fun acc o => match o with SetOutput v => v | _ => acc end)
            ops PNone.

Definition last_filters (ops : list step_op) : pyval :=
  fold_left (fun acc o => match o with SetFilters v => v | _ => acc end)
            ops PNone.

(** A run block in which nothing can escape: no [raise], and every step
    that fails is guarded. *)
Fixpoint all_guarded (cs : list cmd) : bool :=
  match cs with
  | [] => true
  | DoStep c :: cs' =>
      match sc_failure c with
      | Some _ => false
      | None => all_guarded cs'
      end
  | TryStep _ :: cs' => all_guarded cs'
  | DoRaise _ :: _ => false
  end.

(** A world with one finished run of three steps. *)
Definition world_after_mixed_run : World :=
  snd (XRay.run (J := RefJson.codec) "r" PNone
         (run_block (J := RefJson.codec) mixed_block) new_world).

(** A step row written by a step scope of run [run_id] that read the
    clock [clk] at three consecutive ticks between [t0] and [t1]: when its
    handle was made, when the row was created and when it was finished;
    its index is at least [first_index]. *)
Definition step_row_within (run_id : string) (first_index : Z)
    (clk : nat -> Z) (t0 t1 : nat) (s : StepRow.t) : Prop :=
  StepRow.run_id s = run_id
  /\ first_index <= StepRow.step_index s
  /\ exists k : nat,
       (t0 <= k)%nat /\ (3 + k <= t1)%nat
       /\ StepRow.started_at s = clk (S k)
       /\ StepRow.ended_at s = Some (clk (2 + k)%nat)
       /\ StepRow.duration_ms s
          = Some (duration_ms_between (clk k) (clk (2 + k)%nat)).

(** The database of [world_after_mixed_run] with the uuid source rewound
    to draw [k]: the next id drawn is one already in use. *)
Definition replayed_world (k : nat) : World :=
  mkWorld (db world_after_mixed_run) demo_clock 20 demo_uuids k.

(** ** demo/competitor_selection.py

    The loop that removes duplicate keywords while preserving their order
    ([if kw and kw not in seen: seen.add(kw); unique_keywords.append(kw)]),
    [seen] being the keywords met so far, and the cut to five keywords. *)

Fixpoint unique_keywords (seen keywords : list string) : list string :=
  match keywords with
  | [] => []
  | kw :: rest =>
      if negb (kw =? EmptyString)%string && negb (existsb (String.eqb kw) seen)
      then kw :: unique_keywords (kw :: seen) rest
      else unique_keywords seen rest
  end.

Definition limited_keywords (keywords : list string) : list string :=
  firstn 5 (unique_keywords [] keywords).

(** * Properties *)

(** ** ORDER BY *)

Section OrderByFacts.
Variable A : Type.
Variable before : A -> A -> bool.
Hypothesis before_total : forall a b, before a b = true \/ before b a = true.
Hypothesis before_trans :
  forall a b c, before a b = true -> before b c = true -> before a c = true.

Lemma insert_by_perm x l : Permutation (insert_by before x l) (x :: l).
Proof.
  induction l as [|y l IH]; simpl; [reflexivity|].
  destruct (before x y); [reflexivity|].
  rewrite IH. apply perm_swap.
Qed.

Lemma order_by_perm l : Permutation (order_by before l) l.
Proof.
  induction l as [|x l IH]; simpl; [constructor|].
  rewrite insert_by_perm. now constructor.
Qed.

Lemma insert_by_sorted x l :
  StronglySorted (fun a b => before a b = true) l -> StronglySorted (fun a b => before a b = true) (insert_by before x l).
Proof.
  induction 1 as [|y l Hs IH Hy]; simpl.
  - repeat constructor.
  - destruct (before x y) eqn:E.
    + constructor; [now constructor|].
      constructor; [exact E|].
      eapply Forall_impl; [|exact Hy]. intros z Hz. now apply before_trans with y.
    + constructor; [exact IH|].
      apply Permutation_Forall with (x :: l).
      * symmetry. apply insert_by_perm.
      * constructor; [|exact Hy].
        destruct (before_total x y) as [H|H]; [congruence|exact H].
Qed.

Lemma order_by_sorted l : StronglySorted (fun a b => before a b = true) (order_by before l).
Proof.
  induction l as [|x l IH]; simpl; [constructor|].
  now apply insert_by_sorted.
Qed.


End OrderByFacts.

Lemma sorted_map {A B} (R : A -> A -> Prop) (R' : B -> B -> Prop) (f : A -> B) l :
  (forall a b, R a b -> R' (f a) (f b)) ->
  StronglySorted R l -> StronglySorted R' (map f l).
Proof.
  intros Hf. induction 1 as [|x l Hs IH Hx]; simpl; constructor; auto.
  rewrite Forall_forall in *. intros y Hy.
  apply in_map_iff in Hy as (z & <- & Hz). auto.
Qed.

(** ** The store *)

Lemma set_db_same w : set_db w (mkDB (runs (db w)) (steps (db w))) = w.
Proof. destruct w as [[rs ss] c t u d]. reflexivity. Qed.

Lemma existsb_id_In (ids : list string) x :
  existsb (fun y => (y =? x)%string) ids = true <-> In x ids.
Proof.
  rewrite existsb_exists. split.
  - intros (y & Hy & E). apply String.eqb_eq in E. now subst.
  - intros H. exists x. split; [exact H|apply String.eqb_refl].
Qed.

Lemma existsb_run_id (rs : list RunRow.t) x :
  existsb (fun r => (RunRow.id r =? x)%string) rs = true
  <-> In x (map RunRow.id rs).
Proof.
  rewrite <- existsb_id_In. induction rs as [|r rs IH]; simpl; [tauto|].
  destruct (RunRow.id r =? x)%string; simpl; tauto.
Qed.

Lemma existsb_step_id (ss : list StepRow.t) x :
  existsb (fun s => (StepRow.id s =? x)%string) ss = true
  <-> In x (map StepRow.id ss).
Proof.
  rewrite <- existsb_id_In. induction ss as [|s ss IH]; simpl; [tauto|].
  destruct (StepRow.id s =? x)%string; simpl; tauto.
Qed.

Section StoreFacts.
Context {J : Json}.




End StoreFacts.

(** ** Claims about the store *)

Section StoreClaims.
Context {J : Json}.

(** C5 (as amended): [create_run] called with a run id that is already
    in the store raises [sqlite3.IntegrityError], the error of the
    driver (the code defines no [StorageError]), and leaves the database
    as it was. *)
Theorem create_run_existing_id_raises run_id name metadata w :
  In run_id (map RunRow.id (runs (db w))) ->
  exists w',
    SQLiteStore.create_run run_id name metadata w
      = (Raised (SQLiteStore.IntegrityError "runs.id"), w')
    /\ exn_class (SQLiteStore.IntegrityError "runs.id") = "sqlite3.IntegrityError"
    /\ db w' = db w.
Proof.
  intros Hin. unfold SQLiteStore.create_run. simpl.
  apply existsb_run_id in Hin. rewrite Hin.
  eexists. repeat split.
Qed.

(** C6: [finish_run] on a run id with no matching row does not raise and
    leaves the store state unchanged. *)
Theorem finish_run_absent_id_noop run_id ended_at duration_ms status error w :
  ~ In run_id (map RunRow.id (runs (db w))) ->
  SQLiteStore.finish_run run_id ended_at duration_ms status error w = (Ok tt, w).
Proof.
  intros Hnot. unfold SQLiteStore.finish_run.
  match goal with |- context [map ?f (runs (db w))] =>
    assert (Hsame : map f (runs (db w)) = runs (db w)) end.
  { rewrite <- (map_id (runs (db w))) at 2.
    apply map_ext_in. intros r Hr.
    destruct (RunRow.id r =? run_id)%string eqn:E; [|reflexivity].
    apply String.eqb_eq in E. exfalso. apply Hnot. subst.
    now apply in_map. }
  rewrite Hsame, set_db_same. reflexivity.
Qed.




End StoreClaims.

(** C5, as stated, fails: the exception that [create_run] raises for a
    duplicate id is not a [StorageError]. *)
Lemma create_run_duplicate_is_not_StorageError :
  ~ (exists e w',
       SQLiteStore.create_run (J := RefJson.codec) "r1" "again" (PDict [])
         world_with_r1 = (Raised e, w')
       /\ exn_class e = "StorageError").
Proof.
  intros (e & w' & H & Hc).
  vm_compute in H. inversion H; subst e. discriminate Hc.
Qed.

Lemma create_run_existing_id_raises_witness :
  In "r1" (map RunRow.id (runs (db world_with_r1)))
  /\ exists w',
       SQLiteStore.create_run (J := RefJson.codec) "r1" "again" (PDict [])
         world_with_r1
         = (Raised (SQLiteStore.IntegrityError "runs.id"), w')
       /\ exn_class (SQLiteStore.IntegrityError "runs.id")
          = "sqlite3.IntegrityError"
       /\ db w' = db world_with_r1.
Proof.
  split.
  - vm_compute. left. reflexivity.
  - apply (create_run_existing_id_raises (J := RefJson.codec)).
    vm_compute. left. reflexivity.
Defined.

Lemma finish_run_absent_id_noop_witness :
  ~ In "no-such-run" (map RunRow.id (runs (db world_with_r1)))
  /\ SQLiteStore.finish_run "no-such-run" 5000 5 "success" None world_with_r1
     = (Ok tt, world_with_r1).
Proof.
  assert (H : ~ In "no-such-run" (map RunRow.id (runs (db world_with_r1)))).
  { vm_compute. intros [H|[]]. discriminate H. }
  split; [exact H|].
  apply finish_run_absent_id_noop. exact H.
Defined.


(** The scenario of C8: after three runs were created, [list_runs(2)]
    returns the last two, the newest first. *)
Example list_runs_two_of_three :
  map RunView.id (SQLiteStore.list_runs (J := RefJson.codec) 2
                    world_with_three_runs)
  = ["run-c"; "run-b"].
Proof. vm_compute. reflexivity. Qed.

(** A negative limit is no limit. *)
Example list_runs_negative_limit :
  map RunView.id (SQLiteStore.list_runs (J := RefJson.codec) (-1)
                    world_with_three_runs)
  = ["run-c"; "run-b"; "run-a"].
Proof. vm_compute. reflexivity. Qed.

(** ** The step scope *)

Lemma fold_ops_fields ops s :
  let h := fold_left (fun s o => do_op o s) ops s in
  Step.step_id h = Step.step_id s /\
  Step._started_at h = Step._started_at s /\
  Step._error h = Step._error s /\
  Step._evaluations h = (Step._evaluations s ++ evaluations_of ops)%list.
Proof.
  revert s. induction ops as [|o ops IH]; intros s; simpl.
  - rewrite app_nil_r. auto.
  - destruct (IH (do_op o s)) as (H1 & H2 & H3 & H4).
    rewrite H1, H2, H3, H4.
    destruct o; simpl; rewrite ?app_nil_r, <- ?app_assoc; auto.
Qed.

Lemma map_update_last {A} (upd : A -> A) (l : list A) (x : A) :
  (forall y, In y l -> upd y = y) -> map upd (l ++ [x]) = (l ++ [upd x])%list.
Proof.
  intros H. rewrite map_app. simpl. f_equal.
  rewrite <- (map_id l) at 2. now apply map_ext_in.
Qed.

Section StepScope.
Context {J : Json}.

Lemma closed_handle_fields c r w :
  let h := closed_handle c r w in
  Step.step_id h = uuids w (drawn w) /\
  Step._started_at h = clock w (ticks w) /\
  Step._error h = error_of (outcome (sc_failure c)) /\
  Step._evaluations h = evaluations_of (sc_ops c).
Proof.
  unfold closed_handle.
  match goal with |- context [fold_left ?f ?ops ?s] =>
    destruct (fold_ops_fields ops s) as (H1 & H2 & H3 & H4) end.
  destruct (sc_failure c); simpl; rewrite H1, H2, ?H3, H4; auto.
Qed.

(** A step call whose fresh identifier is not yet in the steps table. *)
Lemma call_step_fresh c r w :
  existsb (fun s => StepRow.id s =? uuids w (drawn w))%string (steps (db w))
    = false ->
  call_step c r w = (outcome (sc_failure c), next_index r, after_step c r w).
Proof.
  intros Hfresh.
  assert (Hkeep : forall y, In y (steps (db w)) ->
            (StepRow.id y =? uuids w (drawn w))%string = false).
  { intros y Hy. destruct (StepRow.id y =? _)%string eqn:E; [|reflexivity].
    rewrite <- Hfresh. symmetry. apply existsb_exists. eauto. }
  unfold call_step, Run.step, Step.init, SQLiteStore.create_step,
    step_block, Step._finish, SQLiteStore.finish_step, utcnow, uuid4.
  simpl. rewrite Hfresh. simpl.
  unfold after_step, persisted_step, closed_handle, next_index, set_db, outcome.
  destruct (sc_failure c) as [e|]; simpl;
    match goal with |- context [fold_left ?f ?ops ?s] =>
      destruct (fold_ops_fields ops s) as (H1 & H2 & H3 & _);
      simpl in H1, H2, H3; rewrite ?H1, ?H2, ?H3
    end;
    (rewrite map_update_last;
     [ simpl; rewrite String.eqb_refl; reflexivity
     | intros y Hy; now rewrite (Hkeep y Hy) ]).
Qed.
End StepScope.

(** ** The run scope *)

Section RunScope.
Context {J : Json}.

Lemma call_step_keeps_frame c : keeps_run_frame (call_step c).
Proof.
  intros r w res r' w'.
  unfold call_step, Run.step, Step.init, SQLiteStore.create_step,
    step_block, Step._finish, SQLiteStore.finish_step, utcnow, uuid4.
  simpl.
  destruct (existsb _ (steps (db w))); simpl;
    intros H; inversion H; subst; simpl; repeat split; lia.
Qed.

Lemma run_block_keeps_frame cs : keeps_run_frame (run_block cs).
Proof.
  induction cs as [|[c|c|e] cs IH]; intros r w res r' w'; simpl.
  - intros H. inversion H; subst. repeat split; lia.
  - destruct (call_step c r w) as [[res1 r1] w1] eqn:E1.
    apply call_step_keeps_frame in E1.
    destruct E1 as (F1 & F2 & F3 & F4 & F5 & F6 & F7 & F8).
    destruct res1.
    + intros H. apply IH in H.
      destruct H as (G1 & G2 & G3 & G4 & G5 & G6 & G7 & G8).
      repeat split; try congruence; lia.
    + intros H. inversion H; subst. repeat split; auto.
  - destruct (call_step c r w) as [[res1 r1] w1] eqn:E1.
    apply call_step_keeps_frame in E1.
    destruct E1 as (F1 & F2 & F3 & F4 & F5 & F6 & F7 & F8).
    intros H. apply IH in H.
    destruct H as (G1 & G2 & G3 & G4 & G5 & G6 & G7 & G8).
    repeat split; try congruence; lia.
  - intros H. inversion H; subst. repeat split; lia.
Qed.

Lemma run_block_DoStep c cs r w :
  run_block (DoStep c :: cs) r w
  = match call_step c r w with
    | (Ok _, r, w) => run_block cs r w
    | (Raised e, r, w) => (Raised e, r, w)
    end.
Proof. reflexivity. Qed.

Lemma run_block_TryStep c cs r w :
  run_block (TryStep c :: cs) r w
  = let '(_, r, w) := call_step c r w in run_block cs r w.
Proof. reflexivity. Qed.

(** The facade on a fresh run identifier: the block runs in
    [world_in_run], and [_finish] then rewrites the one row of this run. *)
Lemma XRay_run_fresh name metadata blk w res r' w3 :
  keeps_run_frame blk ->
  existsb (fun r => RunRow.id r =? uuids w (drawn w))%string (runs (db w))
    = false ->
  blk (opened_run name metadata w) (world_in_run name metadata w)
    = (res, r', w3) ->
  XRay.run name metadata blk w
  = (res,
     mkWorld (mkDB (runs (db w)
                    ++ [persisted_run name metadata w res (ticks w3)])
                   (steps (db w3)))
             (clock w) (S (ticks w3)) (uuids w) (drawn w3)).
Proof.
  intros Hframe Hfresh Hblk.
  assert (Hkeep : forall y, In y (runs (db w)) ->
            (RunRow.id y =? uuids w (drawn w))%string = false).
  { intros y Hy. destruct (RunRow.id y =? _)%string eqn:E; [|reflexivity].
    rewrite <- Hfresh. symmetry. apply existsb_exists. eauto. }
  destruct (Hframe _ _ _ _ _ Hblk) as (F1 & F2 & F3 & F4 & F5 & F6 & F7 & F8).
  unfold opened_run, world_in_run in *. simpl in *.
  unfold XRay.run, Run.init, SQLiteStore.create_run, utcnow, uuid4.
  simpl. rewrite Hfresh. unfold set_db. simpl. rewrite Hblk.
  unfold Run._finish, SQLiteStore.finish_run, utcnow, set_db,
    persisted_run, status_of, error_of.
  destruct res as [[]|e]; simpl;
    rewrite F1, F2, F3, F6, F7, ?F8;
    (rewrite map_update_last;
     [ simpl; rewrite String.eqb_refl; reflexivity
     | intros y Hy; now rewrite (Hkeep y Hy) ]).
Qed.
End RunScope.

(** ** One run with one step on a new database *)

Section SingleStep.
Context {J : Json}.
Variables (clk : nat -> Z) (ids : nat -> string) (t n : nat).
Variables (name : string) (metadata : pyval) (c : step_call).

Lemma single_step_run :
  XRay.run name metadata (run_block [DoStep c]) (mkWorld empty_db clk t ids n)
  = (outcome (sc_failure c), single_step_world clk ids t n name metadata c).
Proof.
  set (w := mkWorld empty_db clk t ids n).
  assert (Hblk : run_block [DoStep c] (opened_run name metadata w)
                   (world_in_run name metadata w)
                 = (outcome (sc_failure c),
                    next_index (opened_run name metadata w),
                    after_step c (opened_run name metadata w)
                      (world_in_run name metadata w))).
  { rewrite run_block_DoStep, call_step_fresh by reflexivity.
    now destruct (sc_failure c). }
  rewrite (XRay_run_fresh name metadata w (run_block_keeps_frame _)
             eq_refl Hblk).
  reflexivity.
Qed.

Lemma single_step_get_run :
  SQLiteStore.get_run (ids n) (single_step_world clk ids t n name metadata c)
  = Some (single_step_view clk ids t n name metadata c).
Proof.
  unfold SQLiteStore.get_run, single_step_world. simpl.
  rewrite String.eqb_refl. simpl. reflexivity.
Qed.
End SingleStep.

Section Decoding.
Context {J : Json}.

Lemma load_cell_dumps_if default v :
  stored_faithfully v ->
  SQLiteStore.load_cell default (SQLiteStore.dumps_if v) = v.
Proof.
  intros (Ht & Hne & Hrt).
  unfold SQLiteStore.load_cell, SQLiteStore.dumps_if. rewrite Ht. simpl.
  destruct (dumps v =? EmptyString)%string eqn:E.
  - apply String.eqb_eq in E. contradiction.
  - simpl. now rewrite Hrt.
Qed.

End Decoding.

(** ** Claims about the run and step lifecycle *)

Section LifecycleClaims.
Context {J : Json}.

(** A run block that raises [e] with a non-empty message, entered on a
    fresh run identifier: the run row ends with status [error] and the
    message, and [e] reaches the caller. *)
Lemma run_failure_recorded name metadata cs w e :
  existsb (fun r => RunRow.id r =? uuids w (drawn w))%string (runs (db w))
    = false ->
  fst (XRay.run name metadata (run_block cs) w) = Raised e ->
  str e <> EmptyString ->
  exists w' row,
    XRay.run name metadata (run_block cs) w = (Raised e, w')
    /\ runs (db w') = (runs (db w) ++ [row])%list
    /\ RunRow.id row = uuids w (drawn w)
    /\ RunRow.status row = "error"
    /\ RunRow.error row = Some (str e).
Proof.
  intros Hfresh Hres Hmsg.
  destruct (run_block cs (opened_run name metadata w)
              (world_in_run name metadata w)) as [[res r'] w3] eqn:E.
  rewrite (XRay_run_fresh name metadata w (run_block_keeps_frame cs) Hfresh E)
    in *.
  simpl in Hres. subst res.
  eexists. eexists. split; [reflexivity|]. simpl.
  repeat split.
  unfold persisted_run, status_of, error_of, text_truthy. simpl.
  destruct (str e =? EmptyString)%string eqn:Ee; [|reflexivity].
  apply String.eqb_eq in Ee. contradiction.
Qed.




(** C9: [add_evaluation] and [add_evaluations] extend the evaluation list
    of a step handle at its end; and, on a new database, the evaluations
    that [get_run] returns for a step are all those its block added, in
    call order (the list being one the codec reads back). *)
Theorem evaluations_appended_in_call_order (clk : nat -> Z)
    (ids : nat -> string) (t n : nat) (name sname : string)
    (metadata input : pyval) (reasoning : option string)
    (ops : list step_op) (failure : option exn)
    (s : Step.t) (e : pyval) (es : list pyval) :
  stored_faithfully (PList (evaluations_of ops)) ->
  Step._evaluations (Step.add_evaluation e s)
    = (Step._evaluations s ++ [e])%list
  /\ Step._evaluations (Step.add_evaluations es s)
     = (Step._evaluations s ++ es)%list
  /\ exists res w' v sv,
       XRay.run name metadata
         (run_block [DoStep (StepCall sname input reasoning ops failure)])
         (mkWorld empty_db clk t ids n) = (res, w')
       /\ SQLiteStore.get_run (ids n) w' = Some v
       /\ RunView.steps v = Some [sv]
       /\ StepView.evaluations sv = PList (evaluations_of ops).
Proof.
  intros He.
  split; [reflexivity|]. split; [reflexivity|].
  rewrite single_step_run.
  do 4 eexists.
  split; [reflexivity|].
  split; [apply single_step_get_run|].
  unfold single_step_view. simpl.
  split; [reflexivity|]. simpl.
  match goal with |- context [closed_handle ?c ?r ?w] =>
    destruct (closed_handle_fields c r w) as (_ & _ & _ & Hev) end.
  simpl in Hev. rewrite Hev.
  destruct (evaluations_of ops) as [|x xs] eqn:Eops.
  - destruct He as (Ht & _). discriminate Ht.
  - now apply load_cell_dumps_if.
Qed.
End LifecycleClaims.

(** ** Step indices *)

Lemma existsb_eqb_step_ids (ss : list StepRow.t) x :
  existsb (String.eqb x) (map StepRow.id ss)
  = existsb (fun s => StepRow.id s =? x)%string ss.
Proof.
  induction ss as [|s ss IH]; simpl; [reflexivity|].
  now rewrite IH, String.eqb_sym.
Qed.

Lemma fresh_among_cons old x new :
  fresh_among old (x :: new) = true ->
  existsb (String.eqb x) old = false
  /\ fresh_among (old ++ [x]) new = true.
Proof.
  unfold fresh_among. simpl.
  rewrite !andb_true_iff, !negb_true_iff.
  intros ((Hx & Hd) & (Ho & Hall)).
  split; [exact Ho|]. split; [exact Hd|].
  rewrite forallb_forall in *. intros y Hy.
  specialize (Hall y Hy). apply negb_true_iff in Hall.
  rewrite existsb_app, Hall. simpl. rewrite orb_false_r.
  destruct (y =? x)%string eqn:E; [|reflexivity].
  apply String.eqb_eq in E. subst y. exfalso.
  assert (existsb (String.eqb x) new = true).
  { apply existsb_exists. exists x. split; [exact Hy|apply String.eqb_refl]. }
  congruence.
Qed.

Lemma indices_shift (k : Z) (m : nat) :
  k :: map (fun i => k + 1 + Z.of_nat i) (seq 0 m)
  = map (fun i => k + Z.of_nat i) (seq 0 (S m)).
Proof.
  simpl. f_equal; [lia|].
  rewrite <- seq_shift, map_map. apply map_ext. intros i. lia.
Qed.

Section StepIndices.
Context {J : Json}.

(** The rows a run block appends to the steps table when the identifiers
    it draws are new: one per step call reached, indexed from the counter
    of the run handle upwards. *)
Lemma run_block_rows cs : forall r w,
  fresh_among (map StepRow.id (steps (db w)))
              (next_uuids w (List.length cs)) = true ->
  exists new_rows,
    steps (db (snd (run_block cs r w))) = (steps (db w) ++ new_rows)%list
    /\ map StepRow.step_index new_rows
       = map (fun i => Run._step_index r + Z.of_nat i)
             (seq 0 (steps_opened cs))
    /\ Forall (fun s => StepRow.run_id s = Run.run_id r) new_rows.
Proof.
  induction cs as [|[c|c|e] cs IH]; intros r w Hfresh.
  - exists []. simpl. rewrite app_nil_r. auto.
  - unfold next_uuids in Hfresh. simpl in Hfresh.
    apply fresh_among_cons in Hfresh as (Hnew & Hrest).
    rewrite existsb_eqb_step_ids in Hnew.
    rewrite run_block_DoStep, (call_step_fresh c r w Hnew).
    simpl steps_opened. destruct (sc_failure c) as [e|]; simpl outcome.
    + exists [persisted_step c r w]. simpl.
      repeat split; auto. f_equal. lia.
    + destruct (IH (next_index r) (after_step c r w)) as (rows & H1 & H2 & H3).
      { unfold next_uuids. simpl. now rewrite map_app. }
      exists (persisted_step c r w :: rows).
      rewrite H1. simpl steps. rewrite <- app_assoc. simpl.
      split; [reflexivity|]. split.
      * simpl in H2. rewrite H2. apply (indices_shift (Run._step_index r)).
      * constructor; [reflexivity|exact H3].
  - unfold next_uuids in Hfresh. simpl in Hfresh.
    apply fresh_among_cons in Hfresh as (Hnew & Hrest).
    rewrite existsb_eqb_step_ids in Hnew.
    rewrite run_block_TryStep, (call_step_fresh c r w Hnew).
    simpl steps_opened.
    destruct (IH (next_index r) (after_step c r w)) as (rows & H1 & H2 & H3).
    { unfold next_uuids. simpl. now rewrite map_app. }
    exists (persisted_step c r w :: rows).
    rewrite H1. simpl steps. rewrite <- app_assoc. simpl.
    split; [reflexivity|]. split.
    + simpl in H2. rewrite H2. apply (indices_shift (Run._step_index r)).
    + constructor; [reflexivity|exact H3].
  - exists []. simpl. rewrite app_nil_r. auto.
Qed.

(** C4: a run entered on a fresh identifier, whose step identifiers are
    new, appends to the steps table one row per step call reached, and
    the indices of these rows, in creation order, are 0, 1, ..., N-1,
    whichever of the steps fail. *)
Theorem step_indices_dense_in_creation_order name metadata cs w :
  existsb (fun r => RunRow.id r =? uuids w (drawn w))%string (runs (db w))
    = false ->
  fresh_among (map StepRow.id (steps (db w)))
              (map (uuids w) (seq (S (drawn w)) (List.length cs))) = true ->
  exists new_rows,
    steps (db (snd (XRay.run name metadata (run_block cs) w)))
      = (steps (db w) ++ new_rows)%list
    /\ List.length new_rows = steps_opened cs
    /\ map StepRow.step_index new_rows
       = map Z.of_nat (seq 0 (steps_opened cs))
    /\ Forall (fun s => StepRow.run_id s = uuids w (drawn w)) new_rows.
Proof.
  intros Hrun Hsteps.
  destruct (run_block cs (opened_run name metadata w)
              (world_in_run name metadata w)) as [[res r'] w3] eqn:E.
  rewrite (XRay_run_fresh name metadata w (run_block_keeps_frame cs) Hrun E).
  destruct (run_block_rows cs (opened_run name metadata w)
              (world_in_run name metadata w) Hsteps)
    as (rows & H1 & H2 & H3).
  rewrite E in H1. simpl in H1, H2, H3.
  exists rows. simpl. split; [exact H1|].
  split; [|split; [exact H2|exact H3]].
  rewrite <- (length_map StepRow.step_index), H2, length_map, length_seq.
  reflexivity.
Qed.
End StepIndices.

(** ** The claims on concrete runs *)

#[local] Existing Instance RefJson.codec.

Lemma demo_clock_monotone : monotone_clock new_world.
Proof. intros i j Hij. simpl. unfold demo_clock. lia. Qed.

(** C1 fails on the code: a run block that raises an exception whose
    message is empty leaves the run with status [success]. *)
Theorem run_failure_with_empty_message_recorded_as_success :
  fst (XRay.run "r" PNone (run_block silent_block) new_world)
    = Raised silent_failure
  /\ map RunRow.status
       (runs (db (snd (XRay.run "r" PNone (run_block silent_block) new_world))))
     = ["success"]
  /\ map RunRow.error
       (runs (db (snd (XRay.run "r" PNone (run_block silent_block) new_world))))
     = [Some (str silent_failure)].
Proof. vm_compute. repeat split. Qed.



Lemma step_indices_dense_in_creation_order_witness :
  existsb (fun r => RunRow.id r =? uuids new_world (drawn new_world))%string
          (runs (db new_world)) = false
  /\ fresh_among (map StepRow.id (steps (db new_world)))
                 (map (uuids new_world)
                      (seq (S (drawn new_world)) (List.length mixed_block)))
     = true
  /\ exists new_rows,
       steps (db (snd (XRay.run "r" PNone (run_block mixed_block) new_world)))
         = (steps (db new_world) ++ new_rows)%list
       /\ List.length new_rows = steps_opened mixed_block
       /\ map StepRow.step_index new_rows
          = map Z.of_nat (seq 0 (steps_opened mixed_block))
       /\ Forall (fun s => StepRow.run_id s
                           = uuids new_world (drawn new_world)) new_rows.
Proof.
  split; [reflexivity|].
  split; [vm_compute; reflexivity|].
  apply step_indices_dense_in_creation_order; vm_compute; reflexivity.
Defined.

(** The mixed block opens three steps; their rows carry 0, 1, 2 and the
    statuses of a success and two failures. *)
Example mixed_block_rows :
  map (fun s => (StepRow.name s, StepRow.step_index s, StepRow.status s))
      (steps (db (snd (XRay.run "r" PNone (run_block mixed_block) new_world))))
  = [("load", 0, "success"); ("filter", 1, "error"); ("rank", 2, "error")].
Proof. vm_compute. reflexivity. Qed.

Lemma demo_values_stored_faithfully :
  stored_faithfully (PDict [("product_id", PStr "123")])
  /\ stored_faithfully (PDict [("x", PInt 1)])
  /\ stored_faithfully (PDict [("keywords", PList [PStr "steel"; PStr "bottle"])])
  /\ stored_faithfully (PDict [("min_rating", PInt 4); ("strict", PBool true)])
  /\ stored_faithfully (PList (evaluations_of three_evaluations)).
Proof.
  repeat split; try (vm_compute; reflexivity); vm_compute; discriminate.
Qed.


Lemma evaluations_appended_in_call_order_witness :
  stored_faithfully (PList (evaluations_of three_evaluations))
  /\ exists res w' v sv,
       XRay.run "r" PNone
         (run_block [DoStep (StepCall "s" PNone None three_evaluations None)])
         (mkWorld empty_db demo_clock 0 demo_uuids 0) = (res, w')
       /\ SQLiteStore.get_run (demo_uuids 0) w' = Some v
       /\ RunView.steps v = Some [sv]
       /\ StepView.evaluations sv = PList (evaluations_of three_evaluations).
Proof.
  destruct demo_values_stored_faithfully as (_ & _ & _ & _ & He).
  split; [exact He|].
  apply (evaluations_appended_in_call_order demo_clock demo_uuids 0 0 "r" "s"
           PNone PNone None three_evaluations None
           (fst (Step.init "s" "r" "s" 0 PNone None new_world)) PNone [] He).
Defined.

(** The scenario of C9: three [add_evaluation] calls, read back. *)
Example three_evaluations_read_back :
  exists v sv,
    SQLiteStore.get_run "uuid-0"
      (snd (XRay.run "r" PNone
              (run_block [DoStep (StepCall "s" PNone None three_evaluations None)])
              new_world)) = Some v
    /\ RunView.steps v = Some [sv]
    /\ StepView.evaluations sv
       = PList [PDict [("asin", PStr "B0COMP01"); ("qualified", PBool true)];
                PDict [("asin", PStr "B0COMP02"); ("qualified", PBool false)];
                PDict [("asin", PStr "B0COMP03"); ("qualified", PBool true)]].
Proof.
  unfold new_world. rewrite single_step_run. simpl snd.
  eexists. eexists.
  split; [exact (single_step_get_run demo_clock demo_uuids 0 0 _ _ _)|].
  split; [reflexivity|].
  vm_compute. reflexivity.
Qed.

(** * Further properties of the store *)

Lemma find_run_none (rs : list RunRow.t) x :
  find (fun r => RunRow.id r =? x)%string rs = None
  <-> ~ In x (map RunRow.id rs).
Proof.
  rewrite <- existsb_run_id. induction rs as [|r rs IH]; simpl.
  - split; [discriminate|reflexivity].
  - destruct (RunRow.id r =? x)%string; simpl.
    + split; [discriminate|intros H; now elim H].
    + exact IH.
Qed.

Lemma find_run_last (rs : list RunRow.t) (row : RunRow.t) x :
  RunRow.id row = x ->
  ~ In x (map RunRow.id rs) ->
  find (fun r => RunRow.id r =? x)%string (rs ++ [row]) = Some row.
Proof.
  intros <- H. induction rs as [|r rs IH]; simpl in *.
  - now rewrite String.eqb_refl.
  - destruct (RunRow.id r =? RunRow.id row)%string eqn:E.
    + apply String.eqb_eq in E. tauto.
    + apply IH. tauto.
Qed.

Section StoreExtras.
Context {J : Json}.

(** X1: [get_run] answers [None] exactly for the ids that no run row
    carries. *)
Theorem get_run_none_iff_unknown_id (run_id : string) (w : World) :
  SQLiteStore.get_run run_id w = None
  <-> ~ In run_id (map RunRow.id (runs (db w))).
Proof.
  rewrite <- find_run_none. unfold SQLiteStore.get_run.
  destruct (find _ (runs (db w))); split; congruence.
Qed.

(** X2: a run created under a new id is read back by [get_run] as a
    running run: name and start time as given, no end, no duration, no
    error, and the metadata itself whenever the codec reads its text back,
    the empty mapping included. *)
Theorem create_run_then_get_run run_id name metadata w :
  ~ In run_id (map RunRow.id (runs (db w))) ->
  dumps metadata <> EmptyString ->
  loads (dumps metadata) = Some metadata ->
  exists w' v,
    SQLiteStore.create_run run_id name metadata w = (Ok tt, w')
    /\ SQLiteStore.get_run run_id w' = Some v
    /\ RunView.id v = run_id
    /\ RunView.name v = name
    /\ RunView.status v = "running"
    /\ RunView.started_at v = clock w (ticks w)
    /\ RunView.ended_at v = None
    /\ RunView.duration_ms v = None
    /\ RunView.error v = None
    /\ RunView.metadata v = metadata.
Proof.
  intros Hnew Hne Hrt.
  assert (Hex : existsb (fun r => RunRow.id r =? run_id)%string (runs (db w))
                = false).
  { destruct (existsb _ _) eqn:E; [|reflexivity].
    apply existsb_run_id in E. contradiction. }
  unfold SQLiteStore.create_run, utcnow. simpl. rewrite Hex.
  eexists. eexists. split; [reflexivity|].
  unfold SQLiteStore.get_run, set_db. simpl.
  set (row := RunRow.mk run_id name (clock w (ticks w)) None None "running"
                        (Some (dumps metadata)) None).
  rewrite (@find_run_last (runs (db w)) row run_id eq_refl Hnew).
  split; [reflexivity|]. simpl. repeat split.
  unfold SQLiteStore.load_cell. simpl.
  destruct (dumps metadata =? EmptyString)%string eqn:E.
  - apply String.eqb_eq in E. contradiction.
  - simpl. now rewrite Hrt.
Qed.

(** X3: [create_step] called with a step id that is already in the steps
    table raises [sqlite3.IntegrityError] and writes nothing. *)
Theorem create_step_existing_id_raises step_id run_id name index input_data
    reasoning w :
  In step_id (map StepRow.id (steps (db w))) ->
  exists w',
    SQLiteStore.create_step step_id run_id name index input_data reasoning w
      = (Raised (SQLiteStore.IntegrityError "steps.id"), w')
    /\ db w' = db w.
Proof.
  intros Hin. unfold SQLiteStore.create_step. simpl.
  apply existsb_step_id in Hin. rewrite Hin.
  eexists. split; reflexivity.
Qed.

(** X4: a step created under a new id for an existing run shows up in
    [get_run] as a running step with the index it was given, an empty
    output and neither filters nor evaluations. *)
Theorem create_step_then_get_run step_id run_id name index input_data
    reasoning w :
  In run_id (map RunRow.id (runs (db w))) ->
  ~ In step_id (map StepRow.id (steps (db w))) ->
  exists w' v svs sv,
    SQLiteStore.create_step step_id run_id name index input_data reasoning w
      = (Ok tt, w')
    /\ SQLiteStore.get_run run_id w' = Some v
    /\ RunView.steps v = Some svs
    /\ In sv svs
    /\ StepView.id sv = step_id
    /\ StepView.name sv = name
    /\ StepView.index sv = index
    /\ StepView.status sv = "running"
    /\ StepView.reasoning sv = reasoning
    /\ StepView.ended_at sv = None
    /\ StepView.output sv = PDict []
    /\ StepView.filters_applied sv = PNone
    /\ StepView.evaluations sv = PNone.
Proof.
  intros Hrun Hnew.
  assert (Hex : existsb (fun s => StepRow.id s =? step_id)%string
                  (steps (db w)) = false).
  { destruct (existsb _ _) eqn:E; [|reflexivity].
    apply existsb_step_id in E. contradiction. }
  destruct (find (fun r => RunRow.id r =? run_id)%string (runs (db w)))
    as [row|] eqn:Ef.
  2:{ apply find_run_none in Ef. contradiction. }
  unfold SQLiteStore.create_step, utcnow. simpl. rewrite Hex.
  set (srow := StepRow.mk step_id run_id name index (clock w (ticks w)) None
                 None "running" (Some (dumps input_data)) None reasoning
                 None None None).
  exists (mkWorld (mkDB (runs (db w)) (steps (db w) ++ [srow])) (clock w)
                  (S (ticks w)) (uuids w) (drawn w)).
  unfold SQLiteStore.get_run, set_db. simpl. rewrite Ef.
  eexists. eexists. exists (SQLiteStore.step_view srow).
  split; [reflexivity|]. split; [reflexivity|]. split; [reflexivity|].
  split.
  - apply in_map.
    apply Permutation_in with
      (filter (fun s => StepRow.run_id s =? run_id)%string
              (steps (db w) ++ [srow])).
    + symmetry. apply order_by_perm.
    + apply filter_In. split.
      * apply in_or_app. right. now left.
      * simpl. apply String.eqb_refl.
  - simpl. repeat split.
Qed.

(** X5: [finish_step] on a step id with no matching row does not raise and
    leaves the whole state as it was. *)
Theorem finish_step_absent_id_noop step_id ended_at duration_ms status
    output filters_applied evaluations error w :
  ~ In step_id (map StepRow.id (steps (db w))) ->
  SQLiteStore.finish_step step_id ended_at duration_ms status output
    filters_applied evaluations error w = (Ok tt, w).
Proof.
  intros Hnot. unfold SQLiteStore.finish_step.
  match goal with |- context [map ?f (steps (db w))] =>
    assert (Hsame : map f (steps (db w)) = steps (db w)) end.
  { rewrite <- (map_id (steps (db w))) at 2.
    apply map_ext_in. intros s Hs.
    destruct (StepRow.id s =? step_id)%string eqn:E; [|reflexivity].
    apply String.eqb_eq in E. exfalso. apply Hnot. subst.
    now apply in_map. }
  rewrite Hsame, set_db_same. reflexivity.
Qed.

(** X6: the store does not protect a finished row: a second [finish_run]
    (or [finish_step]) on the same id overwrites the first, and the state
    is the one the second call alone would have produced. *)
Theorem finish_twice_last_write_wins run_id step_id e1 d1 s1 err1 e2 d2 s2
    err2 o1 f1 v1 o2 f2 v2 w :
  SQLiteStore.finish_run run_id e2 d2 s2 err2
    (snd (SQLiteStore.finish_run run_id e1 d1 s1 err1 w))
  = SQLiteStore.finish_run run_id e2 d2 s2 err2 w
  /\ SQLiteStore.finish_step step_id e2 d2 s2 o2 f2 v2 err2
       (snd (SQLiteStore.finish_step step_id e1 d1 s1 o1 f1 v1 err1 w))
     = SQLiteStore.finish_step step_id e2 d2 s2 o2 f2 v2 err2 w.
Proof.
  unfold SQLiteStore.finish_run, SQLiteStore.finish_step, set_db. simpl.
  split; do 3 f_equal; rewrite map_map; apply map_ext; intros r;
    [ destruct (RunRow.id r =? run_id)%string eqn:E
    | destruct (StepRow.id r =? step_id)%string eqn:E ];
    simpl; rewrite E; reflexivity.
Qed.
End StoreExtras.

Lemma NoDup_snoc {A} (l : list A) (x : A) :
  NoDup l -> ~ In x l -> NoDup (l ++ [x]).
Proof.
  intros Hl Hx. apply Permutation_NoDup with (x :: l).
  - apply Permutation_cons_append.
  - now constructor.
Qed.

Lemma find_snoc_other {A} (f : A -> bool) (l : list A) (x : A) :
  f x = false -> find f (l ++ [x]) = find f l.
Proof.
  intros Hx. induction l as [|y l IH]; simpl.
  - now rewrite Hx.
  - now destruct (f y).
Qed.

Lemma find_map_untouched {A} (f : A -> bool) (upd : A -> A) (l : list A) :
  (forall y, f y = true -> upd y = y) ->
  (forall y, f (upd y) = f y) ->
  find f (map upd l) = find f l.
Proof.
  intros Hfix Hsame. induction l as [|y l IH]; simpl; [reflexivity|].
  rewrite Hsame. destruct (f y) eqn:E; [|exact IH].
  now rewrite Hfix.
Qed.

Section StoreInvariants.
Context {J : Json}.

(** X7: the four writers keep both primary keys: from a state in which no
    two rows of a table share an id they lead to such a state, whatever
    the arguments (a duplicate id is refused, an update never changes an
    id). *)
Theorem writers_keep_primary_keys run_id step_id name index metadata
    input_data reasoning ended_at duration_ms status error output
    filters_applied evaluations w :
  well_keyed (db w) ->
  well_keyed (db (snd (SQLiteStore.create_run run_id name metadata w)))
  /\ well_keyed (db (snd (SQLiteStore.finish_run run_id ended_at duration_ms
                            status error w)))
  /\ well_keyed (db (snd (SQLiteStore.create_step step_id run_id name index
                            input_data reasoning w)))
  /\ well_keyed (db (snd (SQLiteStore.finish_step step_id ended_at
                            duration_ms status output filters_applied
                            evaluations error w))).
Proof.
  intros (Hr & Hs). repeat split.
  - unfold SQLiteStore.create_run, utcnow. simpl.
    destruct (existsb _ (runs (db w))) eqn:E; simpl; [exact Hr|].
    rewrite map_app. simpl. apply NoDup_snoc; [exact Hr|].
    intros Hin. apply existsb_run_id in Hin. congruence.
  - unfold SQLiteStore.create_run, utcnow. simpl.
    destruct (existsb _ (runs (db w))); exact Hs.
  - unfold SQLiteStore.finish_run. simpl. rewrite map_map.
    erewrite map_ext; [exact Hr|].
    intros r. simpl. now destruct (RunRow.id r =? run_id)%string.
  - exact Hs.
  - unfold SQLiteStore.create_step, utcnow. simpl.
    destruct (existsb _ (steps (db w))); exact Hr.
  - unfold SQLiteStore.create_step, utcnow. simpl.
    destruct (existsb _ (steps (db w))) eqn:E; simpl; [exact Hs|].
    rewrite map_app. simpl. apply NoDup_snoc; [exact Hs|].
    intros Hin. apply existsb_step_id in Hin. congruence.
  - exact Hr.
  - unfold SQLiteStore.finish_step. simpl. rewrite map_map.
    erewrite map_ext; [exact Hs|].
    intros s. simpl. now destruct (StepRow.id s =? step_id)%string.
Qed.

(** X8: [finish_run] never touches the steps table, never changes the id,
    name, start time or metadata of any run, and leaves every run with
    another id exactly as it was. *)
Theorem finish_run_keeps_other_columns run_id ended_at duration_ms status
    error w :
  let w' := snd (SQLiteStore.finish_run run_id ended_at duration_ms status
                   error w) in
  steps (db w') = steps (db w)
  /\ map RunRow.id (runs (db w')) = map RunRow.id (runs (db w))
  /\ map RunRow.name (runs (db w')) = map RunRow.name (runs (db w))
  /\ map RunRow.started_at (runs (db w')) = map RunRow.started_at (runs (db w))
  /\ map RunRow.metadata (runs (db w')) = map RunRow.metadata (runs (db w))
  /\ forall r, In r (runs (db w)) -> RunRow.id r <> run_id ->
       In r (runs (db w')).
Proof.
  unfold SQLiteStore.finish_run. simpl.
  split; [reflexivity|].
  repeat split;
    try (rewrite map_map; apply map_ext; intros r; simpl;
         now destruct (RunRow.id r =? run_id)%string).
  intros r Hin Hne. apply in_map_iff. exists r. split; [|exact Hin].
  destruct (RunRow.id r =? run_id)%string eqn:E; [|reflexivity].
  apply String.eqb_eq in E. contradiction.
Qed.

(** X9: with a negative limit, or one that is at least the number of runs,
    [list_runs] returns every stored run. *)
Theorem list_runs_returns_all (L : Z) (w : World) :
  L < 0 \/ Z.of_nat (List.length (runs (db w))) <= L ->
  Permutation (map (fun r => SQLiteStore.run_view r None) (runs (db w)))
              (SQLiteStore.list_runs L w).
Proof.
  intros HL. unfold SQLiteStore.list_runs, sql_limit.
  apply Permutation_map. symmetry.
  destruct (Z.ltb_spec L 0) as [Hneg|Hpos].
  - apply order_by_perm.
  - rewrite firstn_all2; [apply order_by_perm|].
    rewrite (Permutation_length
               (order_by_perm SQLiteStore.newer_first (runs (db w)))).
    lia.
Qed.

Lemma by_index_total a b :
  SQLiteStore.by_index a b = true \/ SQLiteStore.by_index b a = true.
Proof. unfold SQLiteStore.by_index. rewrite !Z.leb_le. lia. Qed.

Lemma by_index_trans a b c :
  SQLiteStore.by_index a b = true -> SQLiteStore.by_index b c = true ->
  SQLiteStore.by_index a c = true.
Proof. unfold SQLiteStore.by_index. rewrite !Z.leb_le. lia. Qed.

(** X10: the steps [get_run] returns for a run are sorted by index,
    ascending, all carry the id of that run, and are as many as the step
    rows stored under that run id. *)
Theorem get_run_steps_sorted_and_own (run_id : string) (w : World)
    (v : RunView.t) :
  SQLiteStore.get_run run_id w = Some v ->
  exists svs,
    RunView.steps v = Some svs
    /\ StronglySorted (fun a b => StepView.index a <= StepView.index b) svs
    /\ Forall (fun sv => StepView.run_id sv = run_id) svs
    /\ List.length svs
       = List.length (filter (fun s => StepRow.run_id s =? run_id)%string
                             (steps (db w))).
Proof.
  unfold SQLiteStore.get_run.
  destruct (find _ (runs (db w))) as [row|]; [|discriminate].
  intros H. inversion H; subst v; clear H. simpl.
  set (own := filter (fun s => StepRow.run_id s =? run_id)%string
                     (steps (db w))).
  assert (Hperm : Permutation (order_by SQLiteStore.by_index own) own)
    by apply order_by_perm.
  eexists. split; [reflexivity|]. split; [|split].
  - apply sorted_map with (R := fun a b => SQLiteStore.by_index a b = true).
    + intros a b Hab. simpl. now apply Z.leb_le.
    + apply order_by_sorted; [apply by_index_total|apply by_index_trans].
  - apply Forall_forall. intros sv Hsv.
    apply in_map_iff in Hsv as (s & <- & Hs). simpl.
    apply (Permutation_in _ Hperm) in Hs.
    apply filter_In in Hs as (_ & Hs). now apply String.eqb_eq.
  - rewrite length_map. now apply Permutation_length.
Qed.

(** X11: what is written for another run does not show in [get_run]:
    creating or finishing a run with another id, or creating a step under
    another run id, leaves the answer for this run unchanged. *)
Theorem get_run_ignores_other_runs run_a run_b step_id name index metadata
    input_data reasoning ended_at duration_ms status error w :
  run_a <> run_b ->
  SQLiteStore.get_run run_a
    (snd (SQLiteStore.create_run run_b name metadata w))
  = SQLiteStore.get_run run_a w
  /\ SQLiteStore.get_run run_a
       (snd (SQLiteStore.finish_run run_b ended_at duration_ms status error w))
     = SQLiteStore.get_run run_a w
  /\ SQLiteStore.get_run run_a
       (snd (SQLiteStore.create_step step_id run_b name index input_data
               reasoning w))
     = SQLiteStore.get_run run_a w.
Proof.
  intros Hne.
  assert (Hba : (run_b =? run_a)%string = false)
    by (apply String.eqb_neq; congruence).
  repeat split.
  - unfold SQLiteStore.create_run, utcnow. simpl.
    destruct (existsb _ (runs (db w))); [reflexivity|].
    unfold SQLiteStore.get_run, set_db. simpl.
    rewrite find_snoc_other by exact Hba. reflexivity.
  - unfold SQLiteStore.finish_run, SQLiteStore.get_run, set_db. simpl.
    rewrite find_map_untouched; [reflexivity| |].
    + intros r Hr. apply String.eqb_eq in Hr.
      destruct (RunRow.id r =? run_b)%string eqn:E; [|reflexivity].
      apply String.eqb_eq in E. congruence.
    + intros r. now destruct (RunRow.id r =? run_b)%string.
  - unfold SQLiteStore.create_step, utcnow. simpl.
    destruct (existsb _ (steps (db w))); [reflexivity|].
    unfold SQLiteStore.get_run, set_db. simpl.
    rewrite filter_app. simpl. rewrite Hba, app_nil_r. reflexivity.
Qed.
End StoreInvariants.

(** * Further properties of the run and step scopes *)



Section ScopeExtras.
Context {J : Json}.



(** X16: when the id drawn for a run is already in the runs table, the
    block is never entered: the scope ends the same way whatever the block
    is, with the [sqlite3.IntegrityError] of [create_run], and neither
    table gains a row. *)
Theorem run_scope_id_collision name metadata (blk blk' : body Run.t) w :
  In (uuids w (drawn w)) (map RunRow.id (runs (db w))) ->
  XRay.run name metadata blk w = XRay.run name metadata blk' w
  /\ fst (XRay.run name metadata blk w)
     = Raised (SQLiteStore.IntegrityError "runs.id")
  /\ map RunRow.id (runs (db (snd (XRay.run name metadata blk w))))
     = map RunRow.id (runs (db w))
  /\ steps (db (snd (XRay.run name metadata blk w))) = steps (db w).
Proof.
  intros Hin. apply existsb_run_id in Hin.
  unfold XRay.run, Run.init, SQLiteStore.create_run, Run._finish,
    SQLiteStore.finish_run, utcnow, uuid4.
  simpl. rewrite Hin. simpl.
  repeat split.
  rewrite map_map. apply map_ext. intros r.
  now destruct (RunRow.id r =? uuids w (drawn w))%string.
Qed.

(** X17: when the id drawn for a step is already in the steps table, the
    step block is never entered: the scope ends the same way whatever the
    block is, with the [sqlite3.IntegrityError] of [create_step]; the
    index counter has moved all the same, and no row is added. *)
Theorem step_scope_id_collision name input_data reasoning
    (blk blk' : body Step.t) r w :
  In (uuids w (drawn w)) (map StepRow.id (steps (db w))) ->
  Run.step name input_data reasoning blk r w
  = Run.step name input_data reasoning blk' r w
  /\ fst (fst (Run.step name input_data reasoning blk r w))
     = Raised (SQLiteStore.IntegrityError "steps.id")
  /\ Run._step_index (snd (fst (Run.step name input_data reasoning blk r w)))
     = Run._step_index r + 1
  /\ map StepRow.id
       (steps (db (snd (Run.step name input_data reasoning blk r w))))
     = map StepRow.id (steps (db w))
  /\ runs (db (snd (Run.step name input_data reasoning blk r w)))
     = runs (db w).
Proof.
  intros Hin. apply existsb_step_id in Hin.
  unfold Run.step, Step.init, SQLiteStore.create_step, Step._finish,
    SQLiteStore.finish_step, utcnow, uuid4.
  simpl. rewrite Hin. simpl.
  repeat split.
  rewrite map_map. apply map_ext. intros s.
  now destruct (StepRow.id s =? uuids w (drawn w))%string.
Qed.
End ScopeExtras.

(** ** What one step of a run on a new database reads back as *)

Lemma fold_ops_payloads ops s :
  let h := fold_left (fun s o => do_op o s) ops s in
  Step._output h
  = fold_left (fun acc o => match o with SetOutput v => v | _ => acc end)
              ops (Step._output s)
  /\ Step._filters_applied h
     = fold_left (fun acc o => match o with SetFilters v => v | _ => acc end)
                 ops (Step._filters_applied s).
Proof.
  revert s. induction ops as [|o ops IH]; intros s; simpl; [auto|].
  destruct (IH (do_op o s)) as (H1 & H2). rewrite H1, H2.
  destruct o; simpl; auto.
Qed.

Section PayloadExtras.
Context {J : Json}.

Lemma closed_handle_payloads c r w :
  Step._output (closed_handle c r w) = last_output (sc_ops c)
  /\ Step._filters_applied (closed_handle c r w) = last_filters (sc_ops c).
Proof.
  unfold closed_handle, last_output, last_filters.
  match goal with |- context [fold_left ?f ?ops ?s] =>
    destruct (fold_ops_payloads ops s) as (H1 & H2) end.
  simpl in H1, H2.
  destruct (sc_failure c); simpl; rewrite H1, H2; auto.
Qed.

(** X14: of several [set_output] calls in a step block only the last one
    counts: on a new database, [get_run] returns as output of the step the
    value of the last call (a value the store keeps and the codec reads
    back), whether the block then ends normally or raises. *)
Theorem last_set_output_wins (clk : nat -> Z) (ids : nat -> string)
    (t n : nat) (name sname : string) (metadata input : pyval)
    (reasoning : option string) (ops : list step_op) (failure : option exn) :
  stored_faithfully (last_output ops) ->
  exists v sv,
    SQLiteStore.get_run (ids n)
      (snd (XRay.run name metadata
              (run_block [DoStep (StepCall sname input reasoning ops failure)])
              (mkWorld empty_db clk t ids n))) = Some v
    /\ RunView.steps v = Some [sv]
    /\ StepView.output sv = last_output ops.
Proof.
  intros Hv. rewrite single_step_run. simpl snd.
  eexists. eexists.
  split; [apply single_step_get_run|].
  unfold single_step_view. simpl.
  split; [reflexivity|]. simpl.
  match goal with |- context [closed_handle ?c ?r ?w] =>
    destruct (closed_handle_payloads c r w) as (Ho & _) end.
  simpl in Ho. rewrite Ho. now apply load_cell_dumps_if.
Qed.

(** X15: the same for [set_filters]: the filters [get_run] returns for the
    step are those of the last call. *)
Theorem last_set_filters_wins (clk : nat -> Z) (ids : nat -> string)
    (t n : nat) (name sname : string) (metadata input : pyval)
    (reasoning : option string) (ops : list step_op) (failure : option exn) :
  stored_faithfully (last_filters ops) ->
  exists v sv,
    SQLiteStore.get_run (ids n)
      (snd (XRay.run name metadata
              (run_block [DoStep (StepCall sname input reasoning ops failure)])
              (mkWorld empty_db clk t ids n))) = Some v
    /\ RunView.steps v = Some [sv]
    /\ StepView.filters_applied sv = last_filters ops.
Proof.
  intros Hv. rewrite single_step_run. simpl snd.
  eexists. eexists.
  split; [apply single_step_get_run|].
  unfold single_step_view. simpl.
  split; [reflexivity|]. simpl.
  match goal with |- context [closed_handle ?c ?r ?w] =>
    destruct (closed_handle_payloads c r w) as (_ & Hf) end.
  simpl in Hf. rewrite Hf. now apply load_cell_dumps_if.
Qed.

(** X18: what a step block leaves unset, or sets to an empty value, reads
    back as the reader's default, whatever the codec: the output as the
    empty mapping, the filters as [None], and the evaluations as [None]
    when none was added. *)
Theorem unset_payloads_read_back_as_defaults (clk : nat -> Z)
    (ids : nat -> string) (t n : nat) (name sname : string)
    (metadata input : pyval) (reasoning : option string)
    (ops : list step_op) (failure : option exn) :
  exists v sv,
    SQLiteStore.get_run (ids n)
      (snd (XRay.run name metadata
              (run_block [DoStep (StepCall sname input reasoning ops failure)])
              (mkWorld empty_db clk t ids n))) = Some v
    /\ RunView.steps v = Some [sv]
    /\ (truthy (last_output ops) = false -> StepView.output sv = PDict [])
    /\ (truthy (last_filters ops) = false ->
          StepView.filters_applied sv = PNone)
    /\ (evaluations_of ops = [] -> StepView.evaluations sv = PNone).
Proof.
  rewrite single_step_run. simpl snd.
  eexists. eexists.
  split; [apply single_step_get_run|].
  unfold single_step_view. simpl.
  split; [reflexivity|]. simpl.
  match goal with |- context [closed_handle ?c ?r ?w] =>
    destruct (closed_handle_payloads c r w) as (Ho & Hf);
    destruct (closed_handle_fields c r w) as (_ & _ & _ & He) end.
  simpl in Ho, Hf, He. rewrite Ho, Hf, He.
  unfold SQLiteStore.dumps_if.
  split; [intros ->; reflexivity|].
  split; [intros ->; reflexivity|].
  intros ->. reflexivity.
Qed.
End PayloadExtras.

(** ** The rows of a whole run *)

Lemma step_row_within_weaken run_id i i' clk t0 t0' t1 s :
  step_row_within run_id i clk t0 t1 s ->
  i' <= i -> (t0' <= t0)%nat ->
  step_row_within run_id i' clk t0' t1 s.
Proof.
  intros (H1 & H2 & k & H3 & H4 & H5) Hi Ht.
  split; [exact H1|]. split; [lia|].
  exists k. split; [lia|]. split; [lia|exact H5].
Qed.

Lemma order_by_sorted_same {A} (before : A -> A -> bool) (l : list A) :
  StronglySorted (fun a b => before a b = true) l -> order_by before l = l.
Proof.
  induction 1 as [|x l Hs IH Hx]; simpl; [reflexivity|].
  rewrite IH. destruct l as [|y l']; simpl; [reflexivity|].
  inversion Hx; subst. now rewrite H1.
Qed.

Lemma filter_all {A} (f : A -> bool) (l : list A) :
  Forall (fun x => f x = true) l -> filter f l = l.
Proof.
  induction 1 as [|x l Hx Hl IH]; simpl; [reflexivity|].
  now rewrite Hx, IH.
Qed.

Section RunTrace.
Context {J : Json}.

(** The rows a run block appends when the ids it draws are new: their ids
    are the ids drawn, in the order drawn; each was written between the
    start and the end of the block; their indices grow; and a block in
    which nothing can escape reaches all its steps and ends normally. *)
Lemma run_block_trace cs : forall r w,
  fresh_among (map StepRow.id (steps (db w)))
              (next_uuids w (List.length cs)) = true ->
  exists new_rows,
    steps (db (snd (run_block cs r w))) = (steps (db w) ++ new_rows)%list
    /\ map StepRow.id new_rows
       = firstn (steps_opened cs) (next_uuids w (List.length cs))
    /\ Forall (step_row_within (Run.run_id r) (Run._step_index r) (clock w)
                 (ticks w) (ticks (snd (run_block cs r w)))) new_rows
    /\ StronglySorted (fun a b => SQLiteStore.by_index a b = true) new_rows
    /\ (all_guarded cs = true ->
        fst (fst (run_block cs r w)) = Ok tt
        /\ steps_opened cs = List.length cs).
Proof.
  assert (Hhead : forall c r w (r1 := next_index r) (w1 := after_step c r w)
                    cs rows,
            Forall (step_row_within (Run.run_id r1) (Run._step_index r1)
                      (clock w1) (ticks w1)
                      (ticks (snd (run_block cs r1 w1)))) rows ->
            StronglySorted (fun a b => SQLiteStore.by_index a b = true) rows ->
            Forall (step_row_within (Run.run_id r) (Run._step_index r)
                      (clock w) (ticks w)
                      (ticks (snd (run_block cs r1 w1))))
                   (persisted_step c r w :: rows)
            /\ StronglySorted (fun a b => SQLiteStore.by_index a b = true)
                 (persisted_step c r w :: rows)).
  { intros c r w r1 w1 cs0 rows Hall Hsorted.
    assert (Hticks : (3 + ticks w <= ticks (snd (run_block cs0 r1 w1)))%nat).
    { destruct (run_block cs0 r1 w1) as [[res r2] w2] eqn:E.
      destruct (run_block_keeps_frame cs0 _ _ E) as (_ & _ & _ & Ht & _).
      simpl in *. exact Ht. }
    split.
    - constructor.
      + split; [reflexivity|]. split; [simpl; lia|].
        exists (ticks w). simpl. repeat split; try lia.
      + eapply Forall_impl; [|exact Hall].
        intros s Hs. simpl in Hs.
        apply (step_row_within_weaken Hs); simpl; lia.
    - constructor; [exact Hsorted|].
      eapply Forall_impl; [|exact Hall].
      intros s (_ & Hi & _). simpl in Hi.
      unfold SQLiteStore.by_index. simpl. apply Z.leb_le. lia. }
  induction cs as [|[c|c|e] cs IH]; intros r w Hfresh.
  - exists []. simpl. rewrite app_nil_r.
    repeat split; auto; constructor.
  - unfold next_uuids in *. simpl in Hfresh.
    apply fresh_among_cons in Hfresh as (Hnew & Hrest).
    rewrite existsb_eqb_step_ids in Hnew.
    rewrite run_block_DoStep, (call_step_fresh c r w Hnew).
    simpl steps_opened. simpl all_guarded.
    destruct (sc_failure c) as [e|]; simpl outcome.
    + exists [persisted_step c r w]. simpl.
      split; [reflexivity|]. split; [reflexivity|].
      split; [|split; [repeat constructor|discriminate]].
      constructor; [|constructor].
      split; [reflexivity|]. split; [simpl; lia|].
      exists (ticks w). simpl. repeat split; lia.
    + destruct (IH (next_index r) (after_step c r w))
        as (rows & H1 & H2 & H3 & H4 & H5).
      { unfold next_uuids. simpl. now rewrite map_app. }
      destruct (Hhead c r w cs rows H3 H4) as (G3 & G4).
      exists (persisted_step c r w :: rows).
      rewrite H1. simpl steps. rewrite <- app_assoc. simpl.
      split; [reflexivity|]. split.
      { f_equal. exact H2. }
      split; [exact G3|]. split; [exact G4|].
      intros Hg. destruct (H5 Hg) as (K1 & K2). split; [exact K1|].
      now rewrite K2.
  - unfold next_uuids in *. simpl in Hfresh.
    apply fresh_among_cons in Hfresh as (Hnew & Hrest).
    rewrite existsb_eqb_step_ids in Hnew.
    rewrite run_block_TryStep, (call_step_fresh c r w Hnew).
    simpl steps_opened. simpl all_guarded.
    destruct (IH (next_index r) (after_step c r w))
      as (rows & H1 & H2 & H3 & H4 & H5).
    { unfold next_uuids. simpl. now rewrite map_app. }
    destruct (Hhead c r w cs rows H3 H4) as (G3 & G4).
    exists (persisted_step c r w :: rows).
    rewrite H1. simpl steps. rewrite <- app_assoc. simpl.
    split; [reflexivity|]. split.
    { f_equal. exact H2. }
    split; [exact G3|]. split; [exact G4|].
    intros Hg. destruct (H5 Hg) as (K1 & K2). split; [exact K1|].
    now rewrite K2.
  - exists []. simpl. rewrite app_nil_r.
    repeat split; auto; try constructor; discriminate.
Qed.
End RunTrace.

Lemma firstn_seq_le (m : nat) : forall a n,
  (m <= n)%nat -> firstn m (seq a n) = seq a m.
Proof.
  induction m as [|m IH]; intros a n H; [reflexivity|].
  destruct n as [|n]; [lia|]. simpl. f_equal. apply IH. lia.
Qed.

Lemma steps_opened_le (cs : list cmd) :
  (steps_opened cs <= List.length cs)%nat.
Proof.
  induction cs as [|[c|c|e] cs IH]; simpl; try lia.
  destruct (sc_failure c); lia.
Qed.

Lemma distinct_fresh_among_nil (l : list string) :
  distinct l = true -> fresh_among [] l = true.
Proof.
  intros H. unfold fresh_among. rewrite H. simpl.
  apply forallb_forall. reflexivity.
Qed.

Section RunExtras.
Context {J : Json}.

(** X19: when no drawn id is in use and the clock never runs backwards,
    the timestamps of a finished run are nested: the run ends no earlier
    than it started, every step row written by its block starts no
    earlier than the run, ends no earlier than it starts, with a duration
    that is not negative, and ends no later than the run. *)
Theorem timestamps_are_nested name metadata cs w :
  existsb (fun r => RunRow.id r =? uuids w (drawn w))%string (runs (db w))
    = false ->
  fresh_among (map StepRow.id (steps (db w)))
              (map (uuids w) (seq (S (drawn w)) (List.length cs))) = true ->
  monotone_clock w ->
  exists row run_end new_rows,
    runs (db (snd (XRay.run name metadata (run_block cs) w)))
      = (runs (db w) ++ [row])%list
    /\ steps (db (snd (XRay.run name metadata (run_block cs) w)))
       = (steps (db w) ++ new_rows)%list
    /\ RunRow.ended_at row = Some run_end
    /\ RunRow.started_at row <= run_end
    /\ Forall (fun s =>
                 exists step_end d,
                   StepRow.ended_at s = Some step_end
                   /\ StepRow.duration_ms s = Some d
                   /\ 0 <= d
                   /\ RunRow.started_at row <= StepRow.started_at s
                   /\ StepRow.started_at s <= step_end
                   /\ step_end <= run_end) new_rows.
Proof.
  intros Hrun Hsteps Hclock.
  destruct (run_block_trace cs (opened_run name metadata w)
              (world_in_run name metadata w) Hsteps)
    as (rows & H1 & _ & H3 & _).
  destruct (run_block cs (opened_run name metadata w)
              (world_in_run name metadata w)) as [[res r'] w3] eqn:E.
  rewrite (XRay_run_fresh name metadata w (run_block_keeps_frame cs) Hrun E).
  destruct (run_block_keeps_frame cs _ _ E) as (_ & _ & _ & Hticks & _).
  unfold step_row_within in H3.
  simpl in H1, H3, Hticks. simpl.
  exists (persisted_run name metadata w res (ticks w3)).
  exists (clock w (ticks w3)). exists rows.
  split; [reflexivity|]. split; [exact H1|]. split; [reflexivity|].
  split; [simpl; apply Hclock; lia|].
  eapply Forall_impl; [|exact H3].
  intros s (_ & _ & k & Hk0 & Hk1 & Hs & He & Hd).
  exists (clock w (2 + k)%nat).
  exists (duration_ms_between (clock w k) (clock w (2 + k)%nat)).
  assert (Hdur : clock w k <= clock w (2 + k)%nat) by (apply Hclock; lia).
  split; [exact He|]. split; [exact Hd|]. split.
  { unfold duration_ms_between. apply Z.quot_pos; lia. }
  rewrite Hs. simpl.
  split; [apply Hclock; lia|].
  split; apply Hclock; lia.
Qed.

(** X20: on a new database, with step ids that differ from one another,
    [get_run] returns the steps of a finished run in the order in which
    the block opened them: their ids are the ids drawn, in the order
    drawn, and their indices are 0, 1, ..., N-1. *)
Theorem get_run_returns_steps_in_creation_order (clk : nat -> Z)
    (ids : nat -> string) (t n : nat) (name : string) (metadata : pyval)
    (cs : list cmd) :
  distinct (map ids (seq (S n) (List.length cs))) = true ->
  exists v svs,
    SQLiteStore.get_run (ids n)
      (snd (XRay.run name metadata (run_block cs)
              (mkWorld empty_db clk t ids n))) = Some v
    /\ RunView.steps v = Some svs
    /\ map StepView.id svs = map ids (seq (S n) (steps_opened cs))
    /\ map StepView.index svs = map Z.of_nat (seq 0 (steps_opened cs)).
Proof.
  intros Hdistinct. apply distinct_fresh_among_nil in Hdistinct.
  set (w := mkWorld empty_db clk t ids n).
  destruct (run_block_trace cs (opened_run name metadata w)
              (world_in_run name metadata w) Hdistinct)
    as (rows & H1 & H2 & H3 & H4 & _).
  destruct (run_block_rows cs (opened_run name metadata w)
              (world_in_run name metadata w) Hdistinct)
    as (rows' & G1 & G2 & _).
  rewrite H1 in G1. apply app_inv_head in G1. subst rows'.
  destruct (run_block cs (opened_run name metadata w)
              (world_in_run name metadata w)) as [[res r'] w3] eqn:E.
  rewrite (XRay_run_fresh name metadata w (run_block_keeps_frame cs)
             eq_refl E).
  simpl in H1, H2, H3, G2. simpl.
  unfold SQLiteStore.get_run. simpl. rewrite String.eqb_refl, H1. simpl.
  rewrite filter_all, (order_by_sorted_same SQLiteStore.by_index H4).
  - eexists. eexists. split; [reflexivity|]. simpl.
    split; [reflexivity|]. split.
    + rewrite map_map. simpl.
      change (map (fun x => StepRow.id x) rows) with (map StepRow.id rows).
      rewrite H2. unfold next_uuids. simpl.
      rewrite firstn_map, firstn_seq_le by apply steps_opened_le.
      reflexivity.
    + rewrite map_map. simpl.
      change (map (fun x => StepRow.step_index x) rows)
        with (map StepRow.step_index rows).
      rewrite G2. apply map_ext. intros i. lia.
  - eapply Forall_impl; [|exact H3].
    intros s (Hs & _). rewrite Hs. apply String.eqb_refl.
Qed.

(** X21: failures that the run block catches do not fail the run: when no
    drawn id is in use and every failing step of the block is guarded (and
    the block itself raises nothing), the scope ends normally, the run row
    says [success], and every step of the block has its row. *)
Theorem guarded_failures_do_not_fail_the_run name metadata cs w :
  existsb (fun r => RunRow.id r =? uuids w (drawn w))%string (runs (db w))
    = false ->
  fresh_among (map StepRow.id (steps (db w)))
              (map (uuids w) (seq (S (drawn w)) (List.length cs))) = true ->
  all_guarded cs = true ->
  exists w' row new_rows,
    XRay.run name metadata (run_block cs) w = (Ok tt, w')
    /\ runs (db w') = (runs (db w) ++ [row])%list
    /\ RunRow.status row = "success"
    /\ RunRow.error row = None
    /\ steps (db w') = (steps (db w) ++ new_rows)%list
    /\ List.length new_rows = List.length cs.
Proof.
  intros Hrun Hsteps Hguard.
  destruct (run_block_trace cs (opened_run name metadata w)
              (world_in_run name metadata w) Hsteps)
    as (rows & H1 & H2 & _ & _ & H5).
  destruct (H5 Hguard) as (Hok & Hlen).
  destruct (run_block cs (opened_run name metadata w)
              (world_in_run name metadata w)) as [[res r'] w3] eqn:E.
  rewrite (XRay_run_fresh name metadata w (run_block_keeps_frame cs) Hrun E).
  simpl in H1, H2, Hok. subst res.
  do 3 eexists. split; [reflexivity|]. simpl.
  split; [reflexivity|]. split; [reflexivity|]. split; [reflexivity|].
  split; [exact H1|].
  rewrite <- (length_map StepRow.id), H2, length_firstn, Hlen.
  unfold next_uuids. rewrite length_map, length_seq. lia.
Qed.
End RunExtras.

(** * The keyword list of the demo pipeline *)

Lemma unique_keywords_spec keywords : forall seen,
  NoDup (unique_keywords seen keywords)
  /\ Forall (fun kw => kw <> EmptyString /\ ~ In kw seen /\ In kw keywords)
            (unique_keywords seen keywords).
Proof.
  induction keywords as [|kw rest IH]; intros seen; simpl.
  - split; constructor.
  - destruct (kw =? EmptyString)%string eqn:Ee; simpl.
    + destruct (IH seen) as (H1 & H2). split; [exact H1|].
      eapply Forall_impl; [|exact H2]. simpl. tauto.
    + destruct (existsb (String.eqb kw) seen) eqn:Es; simpl.
      * destruct (IH seen) as (H1 & H2). split; [exact H1|].
        eapply Forall_impl; [|exact H2]. simpl. tauto.
      * destruct (IH (kw :: seen)) as (H1 & H2).
        rewrite Forall_forall in H2. split.
        -- constructor; [|exact H1].
           intros Hin. apply H2 in Hin as (_ & Hn & _). apply Hn. now left.
        -- constructor.
           ++ split; [now apply String.eqb_neq|]. split; [|now left].
              intros Hin.
              assert (existsb (String.eqb kw) seen = true).
              { apply existsb_exists. exists kw.
                split; [exact Hin|apply String.eqb_refl]. }
              congruence.
           ++ apply Forall_forall. intros x Hx.
              apply H2 in Hx as (Hx1 & Hx2 & Hx3).
              split; [exact Hx1|]. split; [|now right].
              intros Hin. apply Hx2. now right.
Qed.

(** X22: the keyword list the demo pipeline keeps holds at most five
    keywords, all taken from the candidates, none empty and none twice;
    and it starts with the first candidate whenever that one is not
    empty, so that the primary keyword of the search step exists. *)
Theorem limited_keywords_are_unique (keywords : list string) :
  NoDup (limited_keywords keywords)
  /\ (List.length (limited_keywords keywords) <= 5)%nat
  /\ ~ In EmptyString (limited_keywords keywords)
  /\ incl (limited_keywords keywords) keywords
  /\ (forall kw rest, keywords = kw :: rest -> kw <> EmptyString ->
        exists more, limited_keywords keywords = kw :: more).
Proof.
  unfold limited_keywords.
  destruct (unique_keywords_spec keywords []) as (Hnd & Hall).
  rewrite Forall_forall in Hall.
  assert (Hsub : forall x, In x (firstn 5 (unique_keywords [] keywords)) ->
                   In x (unique_keywords [] keywords)).
  { intros x Hx. rewrite <- (firstn_skipn 5 (unique_keywords [] keywords)).
    apply in_or_app. now left. }
  split; [|split; [|split; [|split]]].
  - rewrite <- (firstn_skipn 5 (unique_keywords [] keywords)) in Hnd.
    now apply NoDup_app_remove_r in Hnd.
  - rewrite length_firstn. lia.
  - intros Hin. apply Hsub, Hall in Hin. tauto.
  - intros x Hx. apply Hsub, Hall in Hx. tauto.
  - intros kw rest -> Hne. simpl.
    apply String.eqb_neq in Hne. rewrite Hne. simpl. eauto.
Qed.

(** * The further properties on concrete runs *)

Lemma create_run_then_get_run_witness :
  ~ In "r2" (map RunRow.id (runs (db world_with_r1)))
  /\ dumps (PDict []) <> EmptyString
  /\ loads (dumps (PDict [])) = Some (PDict [])
  /\ exists w' v,
       SQLiteStore.create_run "r2" "second" (PDict []) world_with_r1
         = (Ok tt, w')
       /\ SQLiteStore.get_run "r2" w' = Some v
       /\ RunView.id v = "r2"
       /\ RunView.name v = "second"
       /\ RunView.status v = "running"
       /\ RunView.started_at v = clock world_with_r1 (ticks world_with_r1)
       /\ RunView.ended_at v = None
       /\ RunView.duration_ms v = None
       /\ RunView.error v = None
       /\ RunView.metadata v = PDict [].
Proof.
  assert (H1 : ~ In "r2" (map RunRow.id (runs (db world_with_r1)))).
  { vm_compute. intros [H|[]]. discriminate H. }
  assert (H2 : dumps (PDict []) <> EmptyString) by (vm_compute; discriminate).
  assert (H3 : loads (dumps (PDict [])) = Some (PDict []))
    by (vm_compute; reflexivity).
  split; [exact H1|]. split; [exact H2|]. split; [exact H3|].
  apply create_run_then_get_run; assumption.
Defined.

Lemma create_step_existing_id_raises_witness :
  In "uuid-1" (map StepRow.id (steps (db world_after_mixed_run)))
  /\ exists w',
       SQLiteStore.create_step "uuid-1" "uuid-0" "again" 7 PNone None
         world_after_mixed_run
         = (Raised (SQLiteStore.IntegrityError "steps.id"), w')
       /\ db w' = db world_after_mixed_run.
Proof.
  assert (H : In "uuid-1" (map StepRow.id (steps (db world_after_mixed_run)))).
  { vm_compute. left. reflexivity. }
  split; [exact H|].
  apply create_step_existing_id_raises. exact H.
Defined.

Lemma create_step_then_get_run_witness :
  In "r1" (map RunRow.id (runs (db world_with_r1)))
  /\ ~ In "s1" (map StepRow.id (steps (db world_with_r1)))
  /\ exists w' v svs sv,
       SQLiteStore.create_step "s1" "r1" "load" 0 (PDict [("x", PInt 1)])
         (Some "why") world_with_r1 = (Ok tt, w')
       /\ SQLiteStore.get_run "r1" w' = Some v
       /\ RunView.steps v = Some svs
       /\ In sv svs
       /\ StepView.id sv = "s1"
       /\ StepView.name sv = "load"
       /\ StepView.index sv = 0
       /\ StepView.status sv = "running"
       /\ StepView.reasoning sv = Some "why"
       /\ StepView.ended_at sv = None
       /\ StepView.output sv = PDict []
       /\ StepView.filters_applied sv = PNone
       /\ StepView.evaluations sv = PNone.
Proof.
  assert (H1 : In "r1" (map RunRow.id (runs (db world_with_r1)))).
  { vm_compute. left. reflexivity. }
  assert (H2 : ~ In "s1" (map StepRow.id (steps (db world_with_r1)))).
  { vm_compute. intros []. }
  split; [exact H1|]. split; [exact H2|].
  apply create_step_then_get_run; assumption.
Defined.

Lemma finish_step_absent_id_noop_witness :
  ~ In "no-such-step" (map StepRow.id (steps (db world_after_mixed_run)))
  /\ SQLiteStore.finish_step "no-such-step" 9000 9 "success"
       (PDict [("n", PInt 1)]) PNone PNone None world_after_mixed_run
     = (Ok tt, world_after_mixed_run).
Proof.
  assert (H : ~ In "no-such-step"
                (map StepRow.id (steps (db world_after_mixed_run)))).
  { vm_compute. intros [H|[H|[H|[]]]]; discriminate H. }
  split; [exact H|].
  apply finish_step_absent_id_noop. exact H.
Defined.

Lemma mixed_run_well_keyed : well_keyed (db world_after_mixed_run).
Proof.
  unfold well_keyed. vm_compute.
  split; repeat constructor; simpl; intuition discriminate.
Qed.

Lemma writers_keep_primary_keys_witness :
  well_keyed (db world_after_mixed_run)
  /\ well_keyed
       (db (snd (SQLiteStore.create_run "uuid-0" "again" PNone
                   world_after_mixed_run)))
  /\ well_keyed
       (db (snd (SQLiteStore.finish_run "uuid-0" 9000 9 "success" None
                   world_after_mixed_run)))
  /\ well_keyed
       (db (snd (SQLiteStore.create_step "uuid-9" "uuid-0" "again" 3 PNone
                   None world_after_mixed_run)))
  /\ well_keyed
       (db (snd (SQLiteStore.finish_step "uuid-9" 9000 9 "success" PNone
                   PNone PNone None world_after_mixed_run))).
Proof.
  split; [exact mixed_run_well_keyed|].
  apply writers_keep_primary_keys. exact mixed_run_well_keyed.
Defined.

Lemma list_runs_returns_all_witness :
  (-1 < 0 \/ Z.of_nat (List.length (runs (db world_with_three_runs))) <= -1)
  /\ Permutation
       (map (fun r => SQLiteStore.run_view r None)
            (runs (db world_with_three_runs)))
       (SQLiteStore.list_runs (-1) world_with_three_runs).
Proof.
  split; [left; lia|].
  apply list_runs_returns_all. left. lia.
Defined.

Lemma get_run_steps_sorted_and_own_witness :
  exists v,
    SQLiteStore.get_run "uuid-0" world_after_mixed_run = Some v
    /\ exists svs,
         RunView.steps v = Some svs
         /\ StronglySorted
              (fun a b => StepView.index a <= StepView.index b) svs
         /\ Forall (fun sv => StepView.run_id sv = "uuid-0") svs
         /\ List.length svs
            = List.length
                (filter (fun s => StepRow.run_id s =? "uuid-0")%string
                        (steps (db world_after_mixed_run))).
Proof.
  destruct (SQLiteStore.get_run "uuid-0" world_after_mixed_run) as [v|] eqn:E.
  - exists v. split; [reflexivity|].
    exact (get_run_steps_sorted_and_own "uuid-0" world_after_mixed_run E).
  - vm_compute in E. discriminate E.
Defined.

Lemma get_run_ignores_other_runs_witness :
  "uuid-0" <> "other"
  /\ SQLiteStore.get_run "uuid-0"
       (snd (SQLiteStore.create_run "other" "n" PNone world_after_mixed_run))
     = SQLiteStore.get_run "uuid-0" world_after_mixed_run
  /\ SQLiteStore.get_run "uuid-0"
       (snd (SQLiteStore.finish_run "other" 9000 9 "error" (Some "late")
               world_after_mixed_run))
     = SQLiteStore.get_run "uuid-0" world_after_mixed_run
  /\ SQLiteStore.get_run "uuid-0"
       (snd (SQLiteStore.create_step "s9" "other" "n" 0 PNone None
               world_after_mixed_run))
     = SQLiteStore.get_run "uuid-0" world_after_mixed_run.
Proof.
  assert (H : "uuid-0" <> "other") by discriminate.
  split; [exact H|].
  apply get_run_ignores_other_runs. exact H.
Defined.



Lemma last_set_output_wins_witness :
  stored_faithfully
    (last_output [SetOutput (PDict [("n", PInt 1)]);
                  SetOutput (PDict [("n", PInt 2)])])
  /\ exists v sv,
       SQLiteStore.get_run (demo_uuids 0)
         (snd (XRay.run "r" PNone
                 (run_block
                    [DoStep (StepCall "s" PNone None
                               [SetOutput (PDict [("n", PInt 1)]);
                                SetOutput (PDict [("n", PInt 2)])] None)])
                 (mkWorld empty_db demo_clock 0 demo_uuids 0))) = Some v
       /\ RunView.steps v = Some [sv]
       /\ StepView.output sv
          = last_output [SetOutput (PDict [("n", PInt 1)]);
                         SetOutput (PDict [("n", PInt 2)])].
Proof.
  assert (H : stored_faithfully
                (last_output [SetOutput (PDict [("n", PInt 1)]);
                              SetOutput (PDict [("n", PInt 2)])])).
  { repeat split; try (vm_compute; reflexivity); vm_compute; discriminate. }
  split; [exact H|].
  apply last_set_output_wins. exact H.
Defined.

Lemma last_set_filters_wins_witness :
  stored_faithfully
    (last_filters [SetFilters (PDict [("min_reviews", PInt 50)]);
                   SetFilters (PDict [("min_reviews", PInt 100)])])
  /\ exists v sv,
       SQLiteStore.get_run (demo_uuids 0)
         (snd (XRay.run "r" PNone
                 (run_block
                    [DoStep (StepCall "s" PNone None
                               [SetFilters (PDict [("min_reviews", PInt 50)]);
                                SetFilters (PDict [("min_reviews", PInt 100)])]
                               None)])
                 (mkWorld empty_db demo_clock 0 demo_uuids 0))) = Some v
       /\ RunView.steps v = Some [sv]
       /\ StepView.filters_applied sv
          = last_filters [SetFilters (PDict [("min_reviews", PInt 50)]);
                          SetFilters (PDict [("min_reviews", PInt 100)])].
Proof.
  assert (H : stored_faithfully
                (last_filters [SetFilters (PDict [("min_reviews", PInt 50)]);
                               SetFilters (PDict [("min_reviews", PInt 100)])])).
  { repeat split; try (vm_compute; reflexivity); vm_compute; discriminate. }
  split; [exact H|].
  apply last_set_filters_wins. exact H.
Defined.

Lemma run_scope_id_collision_witness :
  In (uuids (replayed_world 0) (drawn (replayed_world 0)))
     (map RunRow.id (runs (db (replayed_world 0))))
  /\ XRay.run "again" PNone (run_block mixed_block) (replayed_world 0)
     = XRay.run "again" PNone (run_block []) (replayed_world 0)
  /\ fst (XRay.run "again" PNone (run_block mixed_block) (replayed_world 0))
     = Raised (SQLiteStore.IntegrityError "runs.id")
  /\ map RunRow.id
       (runs (db (snd (XRay.run "again" PNone (run_block mixed_block)
                         (replayed_world 0)))))
     = map RunRow.id (runs (db (replayed_world 0)))
  /\ steps (db (snd (XRay.run "again" PNone (run_block mixed_block)
                       (replayed_world 0))))
     = steps (db (replayed_world 0)).
Proof.
  assert (H : In (uuids (replayed_world 0) (drawn (replayed_world 0)))
                 (map RunRow.id (runs (db (replayed_world 0))))).
  { vm_compute. left. reflexivity. }
  split; [exact H|].
  apply run_scope_id_collision. exact H.
Defined.

Lemma step_scope_id_collision_witness :
  In (uuids (replayed_world 1) (drawn (replayed_world 1)))
     (map StepRow.id (steps (db (replayed_world 1))))
  /\ Run.step "s" PNone None (step_block [SetOutput (PInt 1)] None)
       (opened_run "r" PNone new_world) (replayed_world 1)
     = Run.step "s" PNone None (step_block [] None)
         (opened_run "r" PNone new_world) (replayed_world 1)
  /\ fst (fst (Run.step "s" PNone None (step_block [SetOutput (PInt 1)] None)
                 (opened_run "r" PNone new_world) (replayed_world 1)))
     = Raised (SQLiteStore.IntegrityError "steps.id")
  /\ Run._step_index
       (snd (fst (Run.step "s" PNone None
                    (step_block [SetOutput (PInt 1)] None)
                    (opened_run "r" PNone new_world) (replayed_world 1))))
     = Run._step_index (opened_run "r" PNone new_world) + 1
  /\ map StepRow.id
       (steps (db (snd (Run.step "s" PNone None
                          (step_block [SetOutput (PInt 1)] None)
                          (opened_run "r" PNone new_world)
                          (replayed_world 1)))))
     = map StepRow.id (steps (db (replayed_world 1)))
  /\ runs (db (snd (Run.step "s" PNone None
                      (step_block [SetOutput (PInt 1)] None)
                      (opened_run "r" PNone new_world) (replayed_world 1))))
     = runs (db (replayed_world 1)).
Proof.
  assert (H : In (uuids (replayed_world 1) (drawn (replayed_world 1)))
                 (map StepRow.id (steps (db (replayed_world 1))))).
  { vm_compute. left. reflexivity. }
  split; [exact H|].
  apply step_scope_id_collision. exact H.
Defined.

Lemma mixed_block_ids_fresh :
  fresh_among (map StepRow.id (steps (db new_world)))
              (map (uuids new_world)
                   (seq (S (drawn new_world)) (List.length mixed_block)))
  = true.
Proof. vm_compute. reflexivity. Qed.

Lemma timestamps_are_nested_witness :
  existsb (fun r => RunRow.id r =? uuids new_world (drawn new_world))%string
          (runs (db new_world)) = false
  /\ fresh_among (map StepRow.id (steps (db new_world)))
                 (map (uuids new_world)
                      (seq (S (drawn new_world)) (List.length mixed_block)))
     = true
  /\ monotone_clock new_world
  /\ exists row run_end new_rows,
       runs (db (snd (XRay.run "r" PNone (run_block mixed_block) new_world)))
         = (runs (db new_world) ++ [row])%list
       /\ steps (db (snd (XRay.run "r" PNone (run_block mixed_block)
                            new_world)))
          = (steps (db new_world) ++ new_rows)%list
       /\ RunRow.ended_at row = Some run_end
       /\ RunRow.started_at row <= run_end
       /\ Forall (fun s =>
                    exists step_end d,
                      StepRow.ended_at s = Some step_end
                      /\ StepRow.duration_ms s = Some d
                      /\ 0 <= d
                      /\ RunRow.started_at row <= StepRow.started_at s
                      /\ StepRow.started_at s <= step_end
                      /\ step_end <= run_end) new_rows.
Proof.
  split; [reflexivity|].
  split; [exact mixed_block_ids_fresh|].
  split; [exact demo_clock_monotone|].
  apply timestamps_are_nested;
    [reflexivity|exact mixed_block_ids_fresh|exact demo_clock_monotone].
Defined.

Lemma get_run_returns_steps_in_creation_order_witness :
  distinct (map demo_uuids (seq 1 (List.length mixed_block))) = true
  /\ exists v svs,
       SQLiteStore.get_run (demo_uuids 0)
         (snd (XRay.run "r" PNone (run_block mixed_block)
                 (mkWorld empty_db demo_clock 0 demo_uuids 0))) = Some v
       /\ RunView.steps v = Some svs
       /\ map StepView.id svs
          = map demo_uuids (seq 1 (steps_opened mixed_block))
       /\ map StepView.index svs
          = map Z.of_nat (seq 0 (steps_opened mixed_block)).
Proof.
  assert (H : distinct (map demo_uuids (seq 1 (List.length mixed_block)))
              = true) by (vm_compute; reflexivity).
  split; [exact H|].
  apply get_run_returns_steps_in_creation_order. exact H.
Defined.

Lemma guarded_block_ids_fresh :
  fresh_among (map StepRow.id (steps (db new_world)))
              (map (uuids new_world)
                   (seq (S (drawn new_world)) (List.length guarded_block)))
  = true.
Proof. vm_compute. reflexivity. Qed.

Lemma guarded_failures_do_not_fail_the_run_witness :
  existsb (fun r => RunRow.id r =? uuids new_world (drawn new_world))%string
          (runs (db new_world)) = false
  /\ fresh_among (map StepRow.id (steps (db new_world)))
                 (map (uuids new_world)
                      (seq (S (drawn new_world)) (List.length guarded_block)))
     = true
  /\ all_guarded guarded_block = true
  /\ exists w' row new_rows,
       XRay.run "r" PNone (run_block guarded_block) new_world = (Ok tt, w')
       /\ runs (db w') = (runs (db new_world) ++ [row])%list
       /\ RunRow.status row = "success"
       /\ RunRow.error row = None
       /\ steps (db w') = (steps (db new_world) ++ new_rows)%list
       /\ List.length new_rows = List.length guarded_block.
Proof.
  split; [reflexivity|].
  split; [exact guarded_block_ids_fresh|].
  split; [vm_compute; reflexivity|].
  apply guarded_failures_do_not_fail_the_run;
    [reflexivity|exact guarded_block_ids_fresh|vm_compute; reflexivity].
Defined.

(** The keyword list of the demo for the reference product. *)
Example limited_keywords_reference_product :
  limited_keywords
    ["probrand steel bottle 32oz insulated";
     "probrand steel bottle 32oz insulated";
     "probrand steel bottle"; "probrand steel"; "probrand";
     "probrand steel sports & outdoors"]
  = ["probrand steel bottle 32oz insulated"; "probrand steel bottle";
     "probrand steel"; "probrand"; "probrand steel sports & outdoors"].
Proof. vm_compute. reflexivity. Qed.
